(** * The OpenAPI-to-tool bridge of the Cobalt Strike MCP server

    A shallow embedding of [src/server.py]: the translator
    [create_tools_from_openapi], the invoker [call_api_operation], the
    protocol wrapper [call_tool] and the startup sequence [authenticate],
    [initialize_api_client], [fetch_openapi_spec] and [main], over the
    Python values that [response.json()] produces, followed by the
    properties of the bridge. *)

From Stdlib Require Import String Ascii List ZArith Bool Lia DecimalString.
Import ListNotations.

Open Scope list_scope.
Open Scope string_scope.

Set Warnings "-register-all".

(** ** Python strings *)

Module PyStr.

Definition newline : string := String "010"%char EmptyString.

(** [s.startswith(p)]. *)
Fixpoint starts_with (p s : string) : bool :=
  match p with
  | EmptyString => true
  | String a p' =>
      match s with
      | EmptyString => false
      | String b s' => Ascii.eqb a b && starts_with p' s'
      end
  end.

(** [needle in s] on two strings: substring test. *)
Fixpoint contains (needle s : string) : bool :=
  starts_with needle s ||
  match s with
  | EmptyString => false
  | String _ s' => contains needle s'
  end.

(** [s.replace("", new)]: [new] goes before every character and at the
    end. *)
Fixpoint interleave (new s : string) : string :=
  match s with
  | EmptyString => new
  | String c s' => new ++ String c (interleave new s')
  end.

(** The scan of [s.replace(old, new)] for a non-empty [old]: occurrences
    are taken left to right and do not overlap; [skip] counts the
    characters of the occurrence just replaced that are still to be
    dropped. *)
Fixpoint replace_from (old new : string) (skip : nat) (s : string) : string :=
  match s with
  | EmptyString => EmptyString
  | String c s' =>
      match skip with
      | S k => replace_from old new k s'
      | O =>
          if starts_with old s
          then new ++ replace_from old new (String.length old - 1) s'
          else String c (replace_from old new 0 s')
      end
  end.

(** [s.replace(old, new)]. *)
Definition replace (old new s : string) : string :=
  match old with
  | EmptyString => interleave new s
  | String _ _ => replace_from old new 0 s
  end.

(** [s.upper()] on the ASCII letters, which is all the bridge applies it
    to (the five method names). *)
Definition upper_char (c : ascii) : ascii :=
  let n := nat_of_ascii c in
  if (97 <=? n)%nat && (n <=? 122)%nat then ascii_of_nat (n - 32) else c.

Fixpoint upper (s : string) : string :=
  match s with
  | EmptyString => EmptyString
  | String c s' => String (upper_char c) (upper s')
  end.

(** [sep.join(parts)]. *)
Definition join (sep : string) (parts : list string) : string :=
  String.concat sep parts.

(** The one-character strings a [for] loop over a string yields. *)
Fixpoint chars (s : string) : list string :=
  match s with
  | EmptyString => []
  | String c s' => String c EmptyString :: chars s'
  end.

End PyStr.

(** ** JSON values as Python holds them

    [response.json()] yields [None], [bool], [int], [float], [str], [list]
    and [dict] with string keys.  A [dict] keeps insertion order, which is
    the order the bridge iterates in, so it is an association list; a
    decoded document has no repeated key.  The type of floats is left
    open: the bridge only asks a float for its truth value, its text and
    whether it equals another number. *)

Inductive json (float : Type) : Type :=
| JNull
| JBool (b : bool)
| JInt (z : Z)
| JFloat (f : float)
| JStr (s : string)
| JArr (l : list (json float))
| JObj (d : list (string * json float)).

Arguments JNull {float}.
Arguments JBool {float} b.
Arguments JInt {float} z.
Arguments JFloat {float} f.
Arguments JStr {float} s.
Arguments JArr {float} l.
Arguments JObj {float} d.

Inductive pytype : Type :=
| ty_NoneType | ty_bool | ty_int | ty_float | ty_str | ty_list | ty_dict.

Definition type_of {float} (v : json float) : pytype :=
  match v with
  | JNull => ty_NoneType
  | JBool _ => ty_bool
  | JInt _ => ty_int
  | JFloat _ => ty_float
  | JStr _ => ty_str
  | JArr _ => ty_list
  | JObj _ => ty_dict
  end.

(** ** Exceptions

    Every exception the bridge can raise derives from [Exception]. *)

Inductive type_fault : Type :=
| NotIterable        (* [x in v] or [for x in v] on a value that is no container *)
| NotSubscriptable   (* [v[k]] on a value without items *)
| BadIndex           (* [v[k]] on a list or a string with a string [k] *)
| Unhashable.        (* a list or a dict used as a dict key *)

Inductive exn : Type :=
| KeyError (key : string)
| AttributeError (ty : pytype) (attr : string)
| TypeError (fault : type_fault) (ty : pytype)
| ValidationError (field : string)
| UnboundLocalError (var : string)
| JSONDecodeError
| HTTPError (msg : string)
| Exception (msg : string).

Inductive result (A : Type) : Type :=
| Ok (a : A)
| Raise (e : exn).

Arguments Ok {A} a.
Arguments Raise {A} e.

Definition bind {A B} (r : result A) (k : A -> result B) : result B :=
  match r with
  | Ok a => k a
  | Raise e => Raise e
  end.

Declare Scope py_scope.
Delimit Scope py_scope with py.
Notation "x <- r ;; k" := (bind r (fun x => k))
  (at level 61, r at next level, right associativity) : py_scope.
Notation "' p <- r ;; k" := (bind r (fun x => match x with p => k end))
  (at level 61, p pattern, r at next level, right associativity) : py_scope.

(** A [for] loop that threads the variables its body updates. *)
Fixpoint for_each {A S} (body : S -> A -> result S) (xs : list A) (s : S)
  : result S :=
  match xs with
  | [] => Ok s
  | x :: xs' => bind (body s x) (for_each body xs')
  end.

(** ** HTTP through the client *)

Inductive verb : Type := GET | POST | PUT | DELETE | PATCH.

(** One call on [api_client]: [params=...] always, [json=...] on [post],
    [put] and [patch] only. *)
Record request (float : Type) : Type := {
  req_verb : verb;
  req_path : string;
  req_params : list (json float * json float);
  req_json : option (json float)
}.

Arguments req_verb {float} r.
Arguments req_path {float} r.
Arguments req_params {float} r.
Arguments req_json {float} r.

(** What the bridge reads of a response: [status_code], [text] and
    [json()], [None] when decoding raises. *)
Record response (float : Type) : Type := {
  status_code : Z;
  text : string;
  json_payload : option (json float)
}.

Arguments status_code {float} r.
Arguments text {float} r.
Arguments json_payload {float} r.

(** The configured [httpx.AsyncClient]: its reply to a request, a response
    or a raised exception. *)
Definition client (float : Type) : Type :=
  request float -> result (response float).

(** ** What the bridge takes from the interpreter and its libraries *)

Record runtime (float : Type) : Type := {
  float_bool : float -> bool;            (* [bool(f)] *)
  float_eqb : float -> float -> bool;    (* two floats are the same dict key *)
  float_eq_int : float -> Z -> bool;     (* a float and an int are the same dict key *)
  float_repr : float -> string;          (* [repr(f)] *)
  str_repr : string -> string;           (* [repr(s)] *)
  json_dumps : json float -> string;     (* [json.dumps(v, indent=2)] *)
  builtin_message : exn -> string;       (* [str(e)] of an interpreter error *)
  status_message : response float -> string  (* the text of [HTTPStatusError] *)
}.

Arguments float_bool {float} r f.
Arguments float_eqb {float} r f g.
Arguments float_eq_int {float} r f z.
Arguments float_repr {float} r f.
Arguments str_repr {float} r s.
Arguments json_dumps {float} r v.
Arguments builtin_message {float} r e.
Arguments status_message {float} r resp.

(** ** Python operations on JSON values *)

Section Values.

Context {float : Type} (rt : runtime float).

Local Abbreviation json := (json float).

Definition dict : Type := list (string * json).

(** [d.get(k)] on a decoded dict. *)
Fixpoint dict_get (k : string) (d : dict) : option json :=
  match d with
  | [] => None
  | (k', v) :: d' => if String.eqb k' k then Some v else dict_get k d'
  end.

Definition dict_mem (k : string) (d : dict) : bool :=
  match dict_get k d with
  | Some _ => true
  | None => false
  end.

(** [bool(v)]. *)
Definition truthy (v : json) : bool :=
  match v with
  | JNull => false
  | JBool b => b
  | JInt z => negb (Z.eqb z 0)
  | JFloat f => float_bool rt f
  | JStr s => negb (String.eqb s EmptyString)
  | JArr l => match l with [] => false | _ :: _ => true end
  | JObj d => match d with [] => false | _ :: _ => true end
  end.

(** [v == s] for a string [s]: only the same string is equal to it. *)
Definition eq_str (v : json) (s : string) : bool :=
  match v with
  | JStr t => String.eqb t s
  | _ => false
  end.

(** [repr(v)] and [str(v)]. *)
Fixpoint py_repr (v : json) : string :=
  match v with
  | JNull => "None"
  | JBool true => "True"
  | JBool false => "False"
  | JInt z => NilZero.string_of_int (Z.to_int z)
  | JFloat f => float_repr rt f
  | JStr s => str_repr rt s
  | JArr l => "[" ++ PyStr.join ", " (map py_repr l) ++ "]"
  | JObj d =>
      "{" ++ PyStr.join ", "
               (map (fun '(k, x) => str_repr rt k ++ ": " ++ py_repr x) d)
          ++ "}"
  end.

Definition py_str (v : json) : string :=
  match v with
  | JStr s => s
  | _ => py_repr v
  end.

(** [str(e)] of a caught exception. *)
Definition exn_str (e : exn) : string :=
  match e with
  | Exception msg => msg
  | HTTPError msg => msg
  | KeyError key => str_repr rt key
  | _ => builtin_message rt e
  end.

(** [s in v] for a string [s]. *)
Definition py_contains (s : string) (v : json) : result bool :=
  match v with
  | JObj d => Ok (dict_mem s d)
  | JArr l => Ok (existsb (fun x => eq_str x s) l)
  | JStr t => Ok (PyStr.contains s t)
  | _ => Raise (TypeError NotIterable (type_of v))
  end.

(** [v[s]] for a string [s]. *)
Definition py_getitem (v : json) (s : string) : result json :=
  match v with
  | JObj d =>
      match dict_get s d with
      | Some x => Ok x
      | None => Raise (KeyError s)
      end
  | JArr _ | JStr _ => Raise (TypeError BadIndex (type_of v))
  | _ => Raise (TypeError NotSubscriptable (type_of v))
  end.

(** [v.get(s, default)]. *)
Definition py_get (v : json) (s : string) (default : json) : result json :=
  match v with
  | JObj d =>
      match dict_get s d with
      | Some x => Ok x
      | None => Ok default
      end
  | _ => Raise (AttributeError (type_of v) "get")
  end.

(** [v.items()]. *)
Definition py_items (v : json) : result (list (string * json)) :=
  match v with
  | JObj d => Ok d
  | _ => Raise (AttributeError (type_of v) "items")
  end.

(** The values [for x in v] runs through. *)
Definition py_iter (v : json) : result (list json) :=
  match v with
  | JArr l => Ok l
  | JObj d => Ok (map (fun kv => JStr (fst kv)) d)
  | JStr s => Ok (map JStr (PyStr.chars s))
  | _ => Raise (TypeError NotIterable (type_of v))
  end.

(** *** Dicts the bridge builds

    Their keys are whatever [param.get("name")] gave: any hashable
    value. *)

Definition hashable (k : json) : bool :=
  match k with
  | JArr _ | JObj _ => false
  | _ => true
  end.

(** Two hashable values are the same key: equal strings, equal numbers
    ([True] is [1]), [None] and [None]. *)
Definition key_eqb (a b : json) : bool :=
  match a, b with
  | JNull, JNull => true
  | JStr s, JStr t => String.eqb s t
  | JBool x, JBool y => Bool.eqb x y
  | JBool x, JInt z => Z.eqb (Z.b2z x) z
  | JInt z, JBool x => Z.eqb z (Z.b2z x)
  | JInt x, JInt y => Z.eqb x y
  | JFloat f, JFloat g => float_eqb rt f g
  | JFloat f, JInt z => float_eq_int rt f z
  | JInt z, JFloat f => float_eq_int rt f z
  | JFloat f, JBool x => float_eq_int rt f (Z.b2z x)
  | JBool x, JFloat f => float_eq_int rt f (Z.b2z x)
  | _, _ => false
  end.

Fixpoint built_get {V} (k : json) (d : list (json * V)) : option V :=
  match d with
  | [] => None
  | (k', v) :: d' => if key_eqb k' k then Some v else built_get k d'
  end.

(** [d[k] = v] on a key that is there keeps its place and its key. *)
Fixpoint built_set {V} (k : json) (v : V) (d : list (json * V))
  : list (json * V) :=
  match d with
  | [] => [(k, v)]
  | (k', v') :: d' =>
      if key_eqb k' k then (k', v) :: d' else (k', v') :: built_set k v d'
  end.

(** [d[k] = v]. *)
Definition py_setitem {V} (d : list (json * V)) (k : json) (v : V)
  : result (list (json * V)) :=
  if hashable k then Ok (built_set k v d)
  else Raise (TypeError Unhashable (type_of k)).

(** [k in arguments] together with the [arguments[k]] the bridge reads
    when it holds, the argument bag being a dict with string keys: the
    value under [k], [None] when [k in arguments] is false. *)
Definition arg_lookup (k : json) (arguments : dict) : result (option json) :=
  match k with
  | JStr n => Ok (dict_get n arguments)
  | JArr _ | JObj _ => Raise (TypeError Unhashable (type_of k))
  | _ => Ok None
  end.

End Values.

(** ** Tool descriptors *)

(** [{"type": ..., "description": ...}], one entry of [properties]. *)
Record property (float : Type) : Type := {
  prop_type : json float;
  prop_description : json float
}.

Arguments prop_type {float} p.
Arguments prop_description {float} p.

(** [input_schema]: [required] is [None] when the key is left out. *)
Record input_schema (float : Type) : Type := {
  schema_type : string;
  properties : list (json float * property float);
  required : option (list (json float))
}.

Arguments schema_type {float} i.
Arguments properties {float} i.
Arguments required {float} i.

(** [mcp.types.Tool]. *)
Record Tool (float : Type) : Type := {
  name : string;
  description : string;
  inputSchema : input_schema float
}.

Arguments name {float} t.
Arguments description {float} t.
Arguments inputSchema {float} t.

(** The method names both loops run through, in this order. *)
Definition METHODS : list string := ["get"; "post"; "put"; "delete"; "patch"].

(** ** The translator: [create_tools_from_openapi] *)

Section Translator.

Context {float : Type} (rt : runtime float).

Local Abbreviation json := (json float).
Local Abbreviation schema_state :=
  (list (json * property float) * list json)%type.

Local Open Scope py_scope.

(** The body of [for param in operation["parameters"]]. *)
Definition add_parameter (st : schema_state) (param : json)
  : result schema_state :=
  let '(properties, required) := st in
  param_name <- py_get param "name" JNull ;;
  param_schema <- py_get param "schema" (JObj []) ;;
  ty <- py_get param_schema "type" (JStr "string") ;;
  descr <- py_get param "description" (JStr EmptyString) ;;
  properties' <- py_setitem rt properties param_name
                   {| prop_type := ty; prop_description := descr |} ;;
  flag <- py_get param "required" (JBool false) ;;
  Ok (properties',
      if truthy rt flag then (required ++ [param_name])%list else required).

(** [if "parameters" in operation: for param in ...]. *)
Definition add_parameters (operation : json) (st : schema_state)
  : result schema_state :=
  has <- py_contains "parameters" operation ;;
  if has then
    parameters <- py_getitem operation "parameters" ;;
    params <- py_iter parameters ;;
    for_each add_parameter params st
  else Ok st.

Definition body_property : property float :=
  {| prop_type := JStr "object";
     prop_description := JStr "Request body (JSON)" |}.

(** The body of [for content_type, content_data in ...items()]. *)
Definition add_content (request_body : json) (st : schema_state)
           (entry : string * json) : result schema_state :=
  let '(properties, required) := st in
  let '(content_type, content_data) := entry in
  if PyStr.contains "application/json" content_type then
    has_schema <- py_contains "schema" content_data ;;
    if has_schema then
      properties' <- py_setitem rt properties (JStr "requestBody")
                       body_property ;;
      flag <- py_get request_body "required" (JBool false) ;;
      Ok (properties',
          if truthy rt flag
          then (required ++ [JStr "requestBody"])%list else required)
    else Ok st
  else Ok st.

(** [if "requestBody" in operation: ...]. *)
Definition add_request_body (operation : json) (st : schema_state)
  : result schema_state :=
  has <- py_contains "requestBody" operation ;;
  if has then
    request_body <- py_getitem operation "requestBody" ;;
    has_content <- py_contains "content" request_body ;;
    if has_content then
      content <- py_getitem request_body "content" ;;
      entries <- py_items content ;;
      for_each (add_content request_body) entries st
    else Ok st
  else Ok st.

(** The name the fallback of [operation.get("operationId", ...)] builds. *)
Definition fallback_name (method path : string) : string :=
  method ++ "_" ++ PyStr.replace "/" "_" path.

(** The body of the inner loop for a method that is present: the tool
    of one operation.  [Tool(...)] validates its fields; [name] is
    declared [str], the other two are a string and a dict by
    construction. *)
Definition operation_tool (method path : string) (operation : json)
  : result (Tool float) :=
  operation_id <- py_get operation "operationId"
                    (JStr (fallback_name method path)) ;;
  summary <- py_get operation "summary" (JStr EmptyString) ;;
  descr <- py_get operation "description" summary ;;
  st <- add_parameters operation ([], []) ;;
  '(properties, required) <- add_request_body operation st ;;
  let input_schema :=
    {| schema_type := "object";
       properties := properties;
       required := match required with
                   | [] => None
                   | _ :: _ => Some required
                   end |} in
  match operation_id with
  | JStr tool_name =>
      Ok {| name := tool_name;
            description :=
              py_str rt summary ++ PyStr.newline ++ PyStr.newline
              ++ "Path: " ++ PyStr.upper method ++ " " ++ path
              ++ PyStr.newline ++ py_str rt descr;
            inputSchema := input_schema |}
  | _ => Raise (ValidationError "name")
  end.

(** The body of the inner loop, [for method in [...]]. *)
Definition method_tools (path : string) (path_item : json)
           (tools : list (Tool float)) (method : string)
  : result (list (Tool float)) :=
  present <- py_contains method path_item ;;
  if present then
    operation <- py_getitem path_item method ;;
    tool <- operation_tool method path operation ;;
    Ok (tools ++ [tool])%list
  else Ok tools.

(** The inner loop on one path. *)
Definition path_tools (path : string) (path_item : json)
           (tools : list (Tool float)) : result (list (Tool float)) :=
  for_each (method_tools path path_item) METHODS tools.

(** [create_tools_from_openapi()], the global [openapi_spec] made an
    argument. *)
Definition create_tools_from_openapi (openapi_spec : option (dict (float := float)))
  : result (list (Tool float)) :=
  match openapi_spec with
  | None => Ok []
  | Some spec =>
      if negb (truthy rt (JObj spec)) || negb (dict_mem "paths" spec)
      then Ok []
      else
        paths <- py_getitem (JObj spec) "paths" ;;
        items <- py_items paths ;;
        for_each (fun tools '(path, path_item) =>
                    path_tools path path_item tools)
                 items []
  end.

End Translator.

(** ** The invoker: [call_api_operation] and [call_tool] *)

(** [mcp.types.TextContent]. *)
Module TextContent.
Record t : Type := { type : string; text : string }.
End TextContent.

Section Invoker.

Context {float : Type} (rt : runtime float).

Local Abbreviation json := (json float).
Local Abbreviation query := (list (json * json)).

(** A computation that may call the client: the requests it issued, in
    order, and how it ended. *)
Definition io (A : Type) : Type := (list (request float) * result A)%type.

Definition io_ret {A} (a : A) : io A := ([], Ok a).

Definition io_bind {A B} (m : io A) (k : A -> io B) : io B :=
  match m with
  | (t, Ok a) => let '(t', r) := k a in ((t ++ t')%list, r)
  | (t, Raise e) => (t, Raise e)
  end.

Definition lift {A} (r : result A) : io A := ([], r).

(** [await api_client.<verb>(...)]. *)
Definition send (api_client : client float) (req : request float)
  : io (response float) :=
  ([req], api_client req).

(** [try: body except <handled>: handler]. *)
Definition try_except {A} (body : io A) (handled : exn -> bool)
           (handler : exn -> io A) : io A :=
  match body with
  | (t, Raise e) =>
      if handled e
      then let '(t', r) := handler e in ((t ++ t')%list, r)
      else (t, Raise e)
  | (t, Ok a) => (t, Ok a)
  end.

Definition any_exception (e : exn) : bool := true.

Definition is_HTTPError (e : exn) : bool :=
  match e with
  | HTTPError _ => true
  | _ => false
  end.

Notation "x <~ m ;; k" := (io_bind m (fun x => k))
  (at level 61, m at next level, right associativity).
Notation "' p <~ m ;; k" := (io_bind m (fun x => match x with p => k end))
  (at level 61, p pattern, m at next level, right associativity).

Local Open Scope py_scope.

(** The body of [for param in operation["parameters"]] in the invoker. *)
Definition partition_argument (arguments : dict) (st : string * query)
           (param : json) : result (string * query) :=
  let '(actual_path, request_params) := st in
  param_name <- py_get param "name" JNull ;;
  param_in <- py_get param "in" JNull ;;
  found <- arg_lookup param_name arguments ;;
  match found with
  | Some value =>
      if eq_str param_in "path" then
        Ok (PyStr.replace ("{" ++ py_str rt param_name ++ "}")
                          (py_str rt value) actual_path,
            request_params)
      else if eq_str param_in "query" then
        request_params' <- py_setitem rt request_params param_name value ;;
        Ok (actual_path, request_params')
      else Ok st
  | None => Ok st
  end.

(** [if "parameters" in operation: for param in ...], from the path
    template and no query parameter. *)
Definition partition_arguments (path : string) (operation : json)
           (arguments : dict) : result (string * query) :=
  has <- py_contains "parameters" operation ;;
  if has then
    parameters <- py_getitem operation "parameters" ;;
    params <- py_iter parameters ;;
    for_each (partition_argument arguments) params (path, [])
  else Ok (path, []).

(** The chain of [if method == ...] around the client call. *)
Definition dispatch (api_client : client float) (method actual_path : string)
           (request_params : query) (request_body : json)
  : io (response float) :=
  if String.eqb method "get" then
    send api_client {| req_verb := GET; req_path := actual_path;
                       req_params := request_params; req_json := None |}
  else if String.eqb method "post" then
    send api_client {| req_verb := POST; req_path := actual_path;
                       req_params := request_params;
                       req_json := Some request_body |}
  else if String.eqb method "put" then
    send api_client {| req_verb := PUT; req_path := actual_path;
                       req_params := request_params;
                       req_json := Some request_body |}
  else if String.eqb method "delete" then
    send api_client {| req_verb := DELETE; req_path := actual_path;
                       req_params := request_params; req_json := None |}
  else if String.eqb method "patch" then
    send api_client {| req_verb := PATCH; req_path := actual_path;
                       req_params := request_params;
                       req_json := Some request_body |}
  else lift (Raise (UnboundLocalError "response")).

(** [response.raise_for_status()]: httpx raises unless the status is a
    success, 200 to 299. *)
Definition raise_for_status (r : response float) : result unit :=
  if (200 <=? status_code r)%Z && (status_code r <=? 299)%Z then Ok tt
  else Raise (HTTPError (status_message rt r)).

(** [response.json()]. *)
Definition response_json (r : response float) : result json :=
  match json_payload r with
  | Some v => Ok v
  | None => Raise JSONDecodeError
  end.

(** What the invoker does once an operation matched: partition the
    arguments, call the client, normalise the reply.  [request_body]
    starts as [None]. *)
Definition invoke (api_client : client float) (method path : string)
           (operation : json) (arguments : dict) : io json :=
  ' (actual_path, request_params) <~
      lift (partition_arguments path operation arguments) ;;
  let request_body :=
    match dict_get "requestBody" arguments with
    | Some body => body
    | None => JNull
    end in
  try_except
    (response <~ dispatch api_client method actual_path request_params
                   request_body ;;
     _ <~ lift (raise_for_status response) ;;
     try_except (lift (response_json response)) any_exception
                (fun _ => io_ret (JStr (text response))))
    is_HTTPError
    (fun e => lift (Raise (Exception ("API call failed: " ++ exn_str rt e)))).

(** The inner loop of the scan on one path: [Some] is the value the
    function returned from inside the loop, [None] that the loop ran
    out. *)
Fixpoint scan_methods (api_client : client float) (operation_id : string)
         (arguments : dict) (path : string) (path_item : json)
         (methods : list string) : io (option json) :=
  match methods with
  | [] => io_ret None
  | method :: rest =>
      present <~ lift (py_contains method path_item) ;;
      if present then
        operation <~ lift (py_getitem path_item method) ;;
        found <~ lift (py_get operation "operationId" JNull) ;;
        if eq_str found operation_id then
          r <~ invoke api_client method path operation arguments ;;
          io_ret (Some r)
        else scan_methods api_client operation_id arguments path path_item rest
      else scan_methods api_client operation_id arguments path path_item rest
  end.

(** The outer loop, [for path, path_item in ...items()]. *)
Fixpoint scan_paths (api_client : client float) (operation_id : string)
         (arguments : dict) (items : list (string * json))
  : io (option json) :=
  match items with
  | [] => io_ret None
  | (path, path_item) :: rest =>
      r <~ scan_methods api_client operation_id arguments path path_item
             METHODS ;;
      match r with
      | Some v => io_ret (Some v)
      | None => scan_paths api_client operation_id arguments rest
      end
  end.

Definition not_initialized : exn :=
  Exception "API client or OpenAPI spec not initialized".

Definition operation_not_found (operation_id : string) : exn :=
  Exception ("Operation " ++ operation_id ++ " not found in OpenAPI spec").

(** [call_api_operation(operation_id, arguments)], the globals
    [api_client] and [openapi_spec] made arguments. *)
Definition call_api_operation (api_client : option (client float))
           (openapi_spec : option (dict (float := float)))
           (operation_id : string) (arguments : dict) : io json :=
  match api_client, openapi_spec with
  | Some c, Some spec =>
      if negb (truthy rt (JObj spec)) then lift (Raise not_initialized)
      else
        paths <~ lift (py_getitem (JObj spec) "paths") ;;
        items <~ lift (py_items paths) ;;
        r <~ scan_paths c operation_id arguments items ;;
        match r with
        | Some v => io_ret v
        | None => lift (Raise (operation_not_found operation_id))
        end
  | _, _ => lift (Raise not_initialized)
  end.

(** [arguments or {}]. *)
Definition or_empty (arguments : option (dict (float := float)))
  : dict (float := float) :=
  match arguments with
  | Some a => if truthy rt (JObj a) then a else []
  | None => []
  end.

(** [call_tool(name, arguments)]. *)
Definition call_tool (api_client : option (client float))
           (openapi_spec : option (dict (float := float)))
           (tool_name : string) (arguments : option (dict (float := float)))
  : io (list TextContent.t) :=
  try_except
    (result <~ call_api_operation api_client openapi_spec tool_name
                 (or_empty arguments) ;;
     io_ret [ {| TextContent.type := "text";
                 TextContent.text :=
                   match result with
                   | JObj _ | JArr _ => json_dumps rt result
                   | _ => py_str rt result
                   end |} ])
    any_exception
    (fun e => io_ret [ {| TextContent.type := "text";
                          TextContent.text := "Error: " ++ exn_str rt e |} ]).

End Invoker.

(** ** Startup: [authenticate], [initialize_api_client],
    [fetch_openapi_spec] and [main] *)

(** The module-level configuration, read from the environment when the
    module is loaded. *)
Record settings : Type := {
  BASE_URL : string;
  USERNAME : string;
  PASSWORD : string;
  VERIFY_SSL : bool
}.

(** An [httpx.AsyncClient], by the arguments it was built with: no
    [base_url] is the empty string, no [headers] the empty list, no
    [timeout] is [None]; the timeout is in seconds. *)
Record AsyncClient : Type := {
  base_url : string;
  headers : list (string * string);
  verify : bool;
  timeout : option Z
}.

(** The calls the program makes on a client. *)
Inductive http_call (float : Type) : Type :=
| post_json (url : string) (body : json float)   (* [client.post(url, json=body)] *)
| get_url (url : string)                         (* [client.get(url)] *)
| api_call (req : request float).                (* a call of [call_api_operation] *)

Arguments post_json {float} url body.
Arguments get_url {float} url.
Arguments api_call {float} req.

(** What the program does to the outside: a call on a client, a line on
    [sys.stderr]. *)
Inductive event (float : Type) : Type :=
| Sent (c : AsyncClient) (call : http_call float)
| Printed (line : string).

Arguments Sent {float} c call.
Arguments Printed {float} line.

(** The three module-level variables. *)
Record globals (float : Type) : Type := {
  bearer_token : option (json float);
  api_client : option AsyncClient;
  openapi_spec : option (json float)
}.

Arguments bearer_token {float} g.
Arguments api_client {float} g.
Arguments openapi_spec {float} g.

(** What startup code can raise: the exceptions of the bridge, the
    [ValueError] of [authenticate] and the [SystemExit] of [sys.exit],
    which is no [Exception]. *)
Inductive raised : Type :=
| Bridge (e : exn)
| ValueError (msg : string)
| SystemExit (code : Z).

Inductive outcome (A : Type) : Type :=
| Returned (a : A)
| Failed (e : raised).

Arguments Returned {A} a.
Arguments Failed {A} e.

(** The UTF-8 bytes of the two marks the log lines start with, U+2713 and
    U+2717. *)
Definition check_mark : string :=
  String "226"%char (String "156"%char (String "147"%char EmptyString)).

Definition cross_mark : string :=
  String "226"%char (String "156"%char (String "151"%char EmptyString)).

Section Startup.

Context {float : Type} (rt : runtime float).

Local Abbreviation json := (json float).

(** The servers behind the clients: the reply to a call on a client. *)
Variable network : AsyncClient -> http_call float -> result (response float).

Variable cfg : settings.

(** Startup code: it reads and writes the globals, does things to the
    outside and returns or raises. *)
Definition proc (A : Type) : Type :=
  globals float -> list (event float) * globals float * outcome A.

Definition ret {A} (a : A) : proc A := fun g => ([], g, Returned a).

Definition fail {A} (e : raised) : proc A := fun g => ([], g, Failed e).

Definition pbind {A B} (m : proc A) (k : A -> proc B) : proc B :=
  fun g =>
    match m g with
    | (t, g1, Returned a) =>
        match k a g1 with
        | (t', g2, r) => ((t ++ t')%list, g2, r)
        end
    | (t, g1, Failed e) => (t, g1, Failed e)
    end.

Notation "x <-- m ;; k" := (pbind m (fun x => k))
  (at level 61, m at next level, right associativity).

Definition of_result {A} (r : result A) : proc A :=
  match r with
  | Ok a => ret a
  | Raise e => fail (Bridge e)
  end.

(** [print(line, file=sys.stderr)]. *)
Definition print (line : string) : proc unit :=
  fun g => ([Printed line], g, Returned tt).

(** [await client.<verb>(...)]. *)
Definition http (c : AsyncClient) (call : http_call float)
  : proc (response float) :=
  fun g => match network c call with
           | Ok r => ([Sent c call], g, Returned r)
           | Raise e => ([Sent c call], g, Failed (Bridge e))
           end.

(** [try: body except <handled> as e: handler]. *)
Definition try_catch {A} (body : proc A) (handled : raised -> bool)
           (handler : raised -> proc A) : proc A :=
  fun g =>
    match body g with
    | (t, g1, Failed e) =>
        if handled e then
          match handler e g1 with
          | (t', g2, r) => ((t ++ t')%list, g2, r)
          end
        else (t, g1, Failed e)
    | (t, g1, Returned a) => (t, g1, Returned a)
    end.

(** [except httpx.HTTPError] and [except Exception]. *)
Definition raised_HTTPError (e : raised) : bool :=
  match e with
  | Bridge (HTTPError _) => true
  | _ => false
  end.

Definition raised_Exception (e : raised) : bool :=
  match e with
  | SystemExit _ => false
  | _ => true
  end.

(** [str(e)]. *)
Definition raised_str (e : raised) : string :=
  match e with
  | Bridge e' => exn_str rt e'
  | ValueError msg => msg
  | SystemExit code => py_str rt (JInt code)
  end.

(** The client [authenticate] logs in with. *)
Definition login_client : AsyncClient :=
  {| base_url := EmptyString; headers := []; verify := VERIFY_SSL cfg;
     timeout := None |}.

(** [authenticate()]. *)
Definition authenticate : proc json :=
  if String.eqb (USERNAME cfg) EmptyString
     || String.eqb (PASSWORD cfg) EmptyString
  then fail (ValueError
               "CS_USERNAME and CS_PASSWORD environment variables must be set")
  else
    let login_url := BASE_URL cfg ++ "/api/auth/login" in
    let login_data := JObj [("username", JStr (USERNAME cfg));
                            ("password", JStr (PASSWORD cfg))] in
    try_catch
      (response <-- http login_client (post_json login_url login_data) ;;
       _ <-- of_result (raise_for_status rt response) ;;
       auth_response <-- of_result (response_json response) ;;
       access_token <-- of_result (py_get auth_response "access_token" JNull) ;;
       if negb (truthy rt access_token)
       then fail (ValueError "No access_token in authentication response")
       else
         _ <-- (fun g => ([], {| bearer_token := Some access_token;
                                 api_client := api_client g;
                                 openapi_spec := openapi_spec g |},
                          Returned tt)) ;;
         _ <-- print (check_mark
                      ++ " Successfully authenticated with Cobalt Strike API") ;;
         ret access_token)
      raised_HTTPError
      (fun e => fail (Bridge (Exception ("Authentication failed: "
                                         ++ raised_str e)))).

(** [initialize_api_client(token)]. *)
Definition initialize_api_client (token : json) : proc AsyncClient :=
  let headers := [("Authorization", "Bearer " ++ py_str rt token);
                  ("Content-Type", "application/json")] in
  let c := {| base_url := BASE_URL cfg; headers := headers;
              verify := VERIFY_SSL cfg; timeout := Some 30%Z |} in
  _ <-- (fun g => ([], {| bearer_token := bearer_token g;
                          api_client := Some c;
                          openapi_spec := openapi_spec g |}, Returned tt)) ;;
  _ <-- print (check_mark ++ " API client initialized with bearer token") ;;
  ret c.

(** [v.values()] and [v.keys()]. *)
Definition py_values (v : json) : result (list json) :=
  match v with
  | JObj d => Ok (map snd d)
  | _ => Raise (AttributeError (type_of v) "values")
  end.

Definition py_keys (v : json) : result (list string) :=
  match v with
  | JObj d => Ok (map fst d)
  | _ => Raise (AttributeError (type_of v) "keys")
  end.

(** The count of the operations, as [fetch_openapi_spec] makes it for
    its log line. *)
Definition count_operations (spec : json) : result nat :=
  bind (py_contains "paths" spec) (fun has =>
  if has then
    bind (py_getitem spec "paths") (fun paths =>
    bind (py_values paths) (fun values =>
    for_each (fun operation_count path_data =>
                bind (py_keys path_data) (fun keys =>
                Ok (operation_count
                    + length (filter (fun k => existsb (String.eqb k) METHODS)
                                     keys))))
             values 0))
  else Ok 0).

Definition loaded_line (operation_count : nat) : string :=
  check_mark ++ " Loaded OpenAPI spec with "
  ++ py_str rt (JInt (Z.of_nat operation_count)) ++ " operations".

(** [fetch_openapi_spec()]. *)
Definition fetch_openapi_spec : proc json :=
  fun g =>
    match api_client g with
    | None => fail (Bridge (Exception "API client not initialized")) g
    | Some c =>
        try_catch
          (response <-- http c (get_url "/v3/api-docs") ;;
           _ <-- of_result (raise_for_status rt response) ;;
           spec <-- of_result (response_json response) ;;
           _ <-- (fun g => ([], {| bearer_token := bearer_token g;
                                   api_client := api_client g;
                                   openapi_spec := Some spec |},
                            Returned tt)) ;;
           operation_count <-- of_result (count_operations spec) ;;
           _ <-- print (loaded_line operation_count) ;;
           ret spec)
          raised_HTTPError
          (fun e => fail (Bridge (Exception ("Failed to fetch OpenAPI spec: "
                                             ++ raised_str e))))
          g
    end.

(** [sys.exit(code)]. *)
Definition sys_exit {A} (code : Z) : proc A := fail (SystemExit code).

(** [main()] up to the point where it hands the streams to
    [server.run]: it returns when the server is ready. *)
Definition main : proc unit :=
  _ <-- print "Starting Cobalt Strike MCP Server..." ;;
  token <-- try_catch authenticate raised_Exception
              (fun e => _ <-- print (cross_mark ++ " Authentication failed: "
                                     ++ raised_str e) ;;
                        sys_exit 1%Z) ;;
  _ <-- try_catch (initialize_api_client token) raised_Exception
          (fun e => _ <-- print (cross_mark
                                 ++ " Failed to initialize API client: "
                                 ++ raised_str e) ;;
                    sys_exit 1%Z) ;;
  _ <-- try_catch fetch_openapi_spec raised_Exception
          (fun e => _ <-- print (cross_mark ++ " Failed to fetch OpenAPI spec: "
                                 ++ raised_str e) ;;
                    sys_exit 1%Z) ;;
  print (check_mark ++ " MCP Server ready").

End Startup.

(** The login call of [authenticate] and the client
    [initialize_api_client] builds for a token. *)
Definition login_call {float : Type} (cfg : settings) : http_call float :=
  post_json (BASE_URL cfg ++ "/api/auth/login")
            (JObj [("username", JStr (USERNAME cfg));
                   ("password", JStr (PASSWORD cfg))]).

Definition bearer_client {float : Type} (rt : runtime float) (cfg : settings)
           (token : json float) : AsyncClient :=
  {| base_url := BASE_URL cfg;
     headers := [("Authorization", "Bearer " ++ py_str rt token);
                 ("Content-Type", "application/json")];
     verify := VERIFY_SSL cfg; timeout := Some 30%Z |}.

(** The calls among the events, in order. *)
Fixpoint sent {float : Type} (events : list (event float))
  : list (AsyncClient * http_call float) :=
  match events with
  | [] => []
  | Sent c call :: rest => (c, call) :: sent rest
  | Printed _ :: rest => sent rest
  end.

(** ** Definitions that follow the words of the specification *)

Module Spec.

(** The path with its slashes replaced by underscores, character by
    character. *)
Fixpoint slashes_to_underscores (s : string) : string :=
  match s with
  | EmptyString => EmptyString
  | String c s' =>
      String (if Ascii.eqb c "/" then "_"%char else c)
             (slashes_to_underscores s')
  end.

Section Words.

Context {float : Type} (rt : runtime float).

Local Abbreviation json := (json float).

(** The [required] list of a descriptor, empty when the key is left
    out. *)
Definition required_list (t : Tool float) : list json :=
  match required (inputSchema t) with
  | Some l => l
  | None => []
  end.

(** A content entry the translator recognises as a JSON body: its media
    type contains [application/json] and its value has [schema]. *)
Definition recognised (entry : string * json) : bool :=
  PyStr.contains "application/json" (fst entry) &&
  match py_contains "schema" (snd entry) with
  | Ok true => true
  | _ => false
  end.

(** The [required] flag of a request body. *)
Definition body_required (request_body : list (string * json)) : bool :=
  match dict_get "required" request_body with
  | Some flag => truthy rt flag
  | None => false
  end.

(** The parameters an operation declares. *)
Definition declared_parameters (operation : json) : list json :=
  match operation with
  | JObj o =>
      match dict_get "parameters" o with
      | Some (JArr l) => l
      | _ => []
      end
  | _ => []
  end.

(** Argument partition, the path: a declared parameter that is present
    in the argument bag and located in [path] has its placeholder
    [{name}] replaced by the stringified value. *)
Definition substitute (arguments : list (string * json)) (actual_path : string)
           (param : json) : string :=
  match param with
  | JObj p =>
      match dict_get "name" p, dict_get "in" p with
      | Some (JStr n), Some (JStr location) =>
          if String.eqb location "path" then
            match dict_get n arguments with
            | Some value =>
                PyStr.replace ("{" ++ n ++ "}") (py_str rt value) actual_path
            | None => actual_path
            end
          else actual_path
      | _, _ => actual_path
      end
  | _ => actual_path
  end.

(** Resolution: the scan for the first operation, paths in document
    order and methods in the fixed order, whose identifier equals the
    requested one. *)
Fixpoint resolve_methods (operation_id path : string) (path_item : json)
         (methods : list string) : result (option (string * string * json)) :=
  match methods with
  | [] => Ok None
  | method :: rest =>
      bind (py_contains method path_item) (fun present =>
      if present then
        bind (py_getitem path_item method) (fun operation =>
        bind (py_get operation "operationId" JNull) (fun found =>
        if eq_str found operation_id then Ok (Some (path, method, operation))
        else resolve_methods operation_id path path_item rest))
      else resolve_methods operation_id path path_item rest)
  end.

Fixpoint resolve_paths (operation_id : string) (items : list (string * json))
  : result (option (string * string * json)) :=
  match items with
  | [] => Ok None
  | (path, path_item) :: rest =>
      bind (resolve_methods operation_id path path_item METHODS) (fun r =>
      match r with
      | Some found => Ok (Some found)
      | None => resolve_paths operation_id rest
      end)
  end.

Definition resolve (spec : list (string * json)) (operation_id : string)
  : result (option (string * string * json)) :=
  bind (py_getitem (JObj spec) "paths") (fun paths =>
  bind (py_items paths) (resolve_paths operation_id)).

(** Dispatch: the request of a method, with the body left out for [get]
    and [delete]. *)
Definition verb_of (method : string) : option verb :=
  if String.eqb method "get" then Some GET
  else if String.eqb method "post" then Some POST
  else if String.eqb method "put" then Some PUT
  else if String.eqb method "delete" then Some DELETE
  else if String.eqb method "patch" then Some PATCH
  else None.

Definition carries_body (v : verb) : bool :=
  match v with
  | POST | PUT | PATCH => true
  | GET | DELETE => false
  end.

Definition request_of (v : verb) (actual_path : string)
           (request_params : list (json * json)) (request_body : json)
  : request float :=
  {| req_verb := v; req_path := actual_path; req_params := request_params;
     req_json := if carries_body v then Some request_body else None |}.

(** The [requestBody] argument, [None] when the bag has none. *)
Definition body_argument (arguments : list (string * json)) : json :=
  match dict_get "requestBody" arguments with
  | Some body => body
  | None => JNull
  end.

(** Result normalisation: the decoded payload of a successful response,
    its text when it does not decode; a failed call wrapped. *)
Definition success (r : response float) : bool :=
  (200 <=? status_code r)%Z && (status_code r <=? 299)%Z.

Definition payload (r : response float) : json :=
  match json_payload r with
  | Some v => v
  | None => JStr (text r)
  end.

Definition normalise (reply : result (response float)) : result json :=
  match reply with
  | Ok r =>
      if success r then Ok (payload r)
      else Raise (Exception ("API call failed: " ++ status_message rt r))
  | Raise (HTTPError msg) => Raise (Exception ("API call failed: " ++ msg))
  | Raise e => Raise e
  end.

(** A document the scan reads without a fault: every path item is a
    mapping, and what it holds under a method is a mapping. *)
Definition wf_item (path_item : json) : bool :=
  match path_item with
  | JObj d =>
      forallb (fun m => match dict_get m d with
                        | Some (JObj _) | None => true
                        | Some _ => false
                        end) METHODS
  | _ => false
  end.

Definition wf_paths (paths : list (string * json)) : bool :=
  forallb (fun kv => wf_item (snd kv)) paths.

(** Some operation of the document declares [operation_id] as its
    [operationId]. *)
Definition declares (operation_id : string) (operation : json) : bool :=
  match operation with
  | JObj o =>
      match dict_get "operationId" o with
      | Some v => eq_str v operation_id
      | None => false
      end
  | _ => false
  end.

Definition item_declares (operation_id : string) (path_item : json)
           (methods : list string) : bool :=
  existsb (fun m => match path_item with
                    | JObj d =>
                        match dict_get m d with
                        | Some operation => declares operation_id operation
                        | None => false
                        end
                    | _ => false
                    end) methods.

Definition declared (operation_id : string) (paths : list (string * json))
  : bool :=
  existsb (fun kv => item_declares operation_id (snd kv) METHODS) paths.

(** The operations a path item holds under the given methods, in their
    order, and those of the whole [paths] collection, in document
    order. *)
Definition item_operations (path : string) (path_item : json)
           (methods : list string) : list (string * string * json) :=
  flat_map (fun m => match path_item with
                     | JObj d =>
                         match dict_get m d with
                         | Some operation => [(path, m, operation)]
                         | None => []
                         end
                     | _ => []
                     end) methods.

Definition operations (paths : list (string * json))
  : list (string * string * json) :=
  flat_map (fun kv => item_operations (fst kv) (snd kv) METHODS) paths.

(** [t] is the tool of the operation [o]. *)
Definition is_tool_of (o : string * string * json) (t : Tool float) : Prop :=
  operation_tool rt (snd (fst o)) (fst (fst o)) (snd o) = Ok t.

(** The name of a declared parameter, [None] without one, and whether
    its [required] flag is set. *)
Definition parameter_name (param : json) : json :=
  match param with
  | JObj p =>
      match dict_get "name" p with
      | Some n => n
      | None => JNull
      end
  | _ => JNull
  end.

Definition flagged_required (param : json) : bool :=
  match param with
  | JObj p =>
      match dict_get "required" p with
      | Some flag => truthy rt flag
      | None => false
      end
  | _ => false
  end.

(** The property a declared parameter is listed with: the type of its
    schema, [string] without one, and its description, empty without
    one. *)
Definition declared_property (p : list (string * json)) : property float :=
  {| prop_type :=
       match dict_get "schema" p with
       | Some (JObj schema) =>
           match dict_get "type" schema with
           | Some ty => ty
           | None => JStr "string"
           end
       | _ => JStr "string"
       end;
     prop_description :=
       match dict_get "description" p with
       | Some d => d
       | None => JStr EmptyString
       end |}.

(** An entry of the query parameters that comes from a declared [query]
    parameter and carries the value the argument bag has under its
    name. *)
Definition is_query_argument (arguments : list (string * json))
           (params : list json) (kv : json * json) : Prop :=
  exists n p,
    fst kv = JStr n /\ In (JObj p) params /\
    dict_get "name" p = Some (JStr n) /\
    dict_get "in" p = Some (JStr "query") /\
    dict_get n arguments = Some (snd kv).

End Words.


End Spec.

(** ** A runtime and documents to evaluate the bridge on *)

Module Sample.

(** No float occurs in the sample documents; [repr] of their strings
    is the string between single quotes. *)
Definition rt : runtime Empty_set :=
  {| float_bool := fun f : Empty_set => match f with end;
     float_eqb := fun (f : Empty_set) _ => match f with end;
     float_eq_int := fun (f : Empty_set) _ => match f with end;
     float_repr := fun f : Empty_set => match f with end;
     str_repr := fun s => "'" ++ s ++ "'";
     json_dumps := fun _ => "{...}";
     builtin_message := fun _ => "interpreter error";
     status_message := fun _ => "status error" |}.

Definition value : Type := json Empty_set.

(** A client that answers every request with [200] and a text body
    that is no JSON. *)
Definition plain_client : client Empty_set :=
  fun _ => Ok {| status_code := 200; text := "done"; json_payload := None |}.

(** A document without a [paths] key. *)
Definition no_paths : list (string * value) :=
  [("openapi", JStr "3.0.1"); ("info", JObj [("title", JStr "API")])].

Definition id_parameter : value :=
  JObj [("name", JStr "id"); ("in", JStr "path"); ("required", JBool true);
        ("schema", JObj [("type", JStr "string")])].

Definition token_parameter : value :=
  JObj [("name", JStr "X-Token"); ("in", JStr "header")].

Definition kill_content : list (string * value) :=
  [("text/plain", JObj [("schema", JObj [("type", JStr "string")])]);
   ("application/json", JObj [("schema", JObj [("type", JStr "object")])])].

Definition kill_body_fields : list (string * value) :=
  [("required", JBool true); ("content", JObj kill_content)].

Definition kill_body : value := JObj kill_body_fields.

(** [GET /beacons/{id}] without an identifier, [getTarget] and
    [POST /beacons/{id}/kill] with one. *)
Definition beacons : list (string * value) :=
  [("openapi", JStr "3.0.1");
   ("paths",
    JObj [("/beacons/{id}",
           JObj [("get", JObj [("summary", JStr "One beacon");
                               ("parameters",
                                JArr [id_parameter; token_parameter])])]);
          ("/targets",
           JObj [("get", JObj [("operationId", JStr "getTarget")])]);
          ("/beacons/{id}/kill",
           JObj [("post", JObj [("operationId", JStr "killBeacon");
                                ("parameters", JArr [id_parameter]);
                                ("requestBody", kill_body)])])])].

(** [POST /tasks] declares a required JSON request body that carries an
    example and no schema. *)
Definition schemaless : list (string * value) :=
  [("paths",
    JObj [("/tasks",
           JObj [("post",
                  JObj [("operationId", JStr "createTask");
                        ("requestBody",
                         JObj [("required", JBool true);
                               ("content",
                                JObj [("application/json",
                                       JObj [("example",
                                              JObj [("name", JStr "t")])])])])])])])].

(** [GET /a] has no identifier; the identifier of [GET /b] is the
    fallback name of [GET /a]. *)
Definition shadowed : list (string * value) :=
  [("paths",
    JObj [("/a", JObj [("get", JObj [("summary", JStr "List a")])]);
          ("/b", JObj [("get", JObj [("operationId", JStr "get__a")])])])].

(** A client that cannot reach the server. *)
Definition failing_client : client Empty_set :=
  fun _ => Raise (HTTPError "timed out").

Definition filter_parameter : list (string * value) :=
  [("name", JStr "filter"); ("in", JStr "query")].

Definition list_operation : list (string * value) :=
  [("operationId", JStr "listBeacons");
   ("parameters", JArr [JObj filter_parameter])].

(** [GET /beacons] with the optional query parameter [filter]. *)
Definition listing : list (string * value) :=
  [("paths", JObj [("/beacons", JObj [("get", JObj list_operation)])])].

Definition operator : settings :=
  {| BASE_URL := "https://teamserver:50443"; USERNAME := "operator";
     PASSWORD := "secret"; VERIFY_SSL := false |}.

Definition anonymous : settings :=
  {| BASE_URL := "https://teamserver:50443"; USERNAME := EmptyString;
     PASSWORD := "secret"; VERIFY_SSL := false |}.

(** A server that logs everybody in with the token [t0k3n], serves
    [beacons] as its document and answers every other call with the text
    [done]. *)
Definition network (c : AsyncClient) (call : http_call Empty_set)
  : result (response Empty_set) :=
  match call with
  | post_json _ _ =>
      Ok {| status_code := 200; text := "{...}";
            json_payload := Some (JObj [("access_token", JStr "t0k3n")]) |}
  | get_url _ =>
      Ok {| status_code := 200; text := "{...}";
            json_payload := Some (JObj beacons) |}
  | api_call _ =>
      Ok {| status_code := 200; text := "done"; json_payload := None |}
  end.

(** The globals when the module is loaded. *)
Definition unset : globals Empty_set :=
  {| bearer_token := None; api_client := None; openapi_spec := None |}.

End Sample.

(** * Properties *)

(** ** Facts on [str.replace] *)

Module PyStrFacts.

Import PyStr Spec.

Lemma starts_with_app (p s : string) : starts_with p (p ++ s) = true.
Proof.
  induction p as [| a p IH]; simpl; [reflexivity |].
  now rewrite Ascii.eqb_refl.
Qed.

Lemma replace_from_skip (old new k s : string) :
  replace_from old new (String.length k) (k ++ s) = replace_from old new 0 s.
Proof.
  induction k as [| a k IH]; simpl; [reflexivity | exact IH].
Qed.

(** An occurrence at the front is replaced and the scan resumes after
    it. *)
Lemma replace_occurrence (old new s : string) :
  old <> EmptyString ->
  replace old new (old ++ s) = new ++ replace old new s.
Proof.
  destruct old as [| a o]; [congruence | intros _].
  unfold replace.
  change (String a o ++ s) with (String a (o ++ s)).
  cbn [replace_from].
  change (String a (o ++ s)) with (String a o ++ s).
  rewrite starts_with_app.
  replace (String.length (String a o) - 1) with (String.length o)
    by (simpl; lia).
  now rewrite replace_from_skip.
Qed.

(** A character that starts no occurrence is kept. *)
Lemma replace_other (old new : string) (c : ascii) (s : string) :
  old <> EmptyString ->
  starts_with old (String c s) = false ->
  replace old new (String c s) = String c (replace old new s).
Proof.
  destruct old as [| a o]; [congruence | intros _ Hp].
  unfold replace. cbn [replace_from]. now rewrite Hp.
Qed.

(** Without an occurrence the string is returned as it is. *)
Lemma replace_absent (old new s : string) :
  contains old s = false -> replace old new s = s.
Proof.
  destruct old as [| a o].
  - intros H. destruct s; simpl in H; discriminate.
  - unfold replace.
    induction s as [| c s IH]; intros H; [reflexivity |].
    cbn [contains] in H. apply orb_false_iff in H as [Hp Hc].
    cbn [replace_from]. rewrite Hp. f_equal. now apply IH.
Qed.

(** [path.replace('/', '_')] touches the slashes and nothing else. *)
Lemma replace_slash (s : string) :
  replace "/" "_" s = slashes_to_underscores s.
Proof.
  unfold replace.
  induction s as [| c s IH]; [reflexivity |].
  cbn [replace_from slashes_to_underscores starts_with].
  rewrite andb_true_r, (Ascii.eqb_sym "/" c).
  destruct (Ascii.eqb c "/") eqn:E; simpl; now rewrite IH.
Qed.

End PyStrFacts.

(** ** Reasoning on [result] *)

Lemma bind_Ok {A B} (r : result A) (k : A -> result B) (b : B) :
  bind r k = Ok b -> exists a, r = Ok a /\ k a = Ok b.
Proof.
  destruct r as [a | e]; simpl; [eauto | discriminate].
Qed.

Lemma for_each_app {A S} (body : S -> A -> result S) (xs ys : list A) (s : S) :
  for_each body (xs ++ ys)%list s = bind (for_each body xs s) (for_each body ys).
Proof.
  revert s. induction xs as [| x xs IH]; intros s; simpl; [reflexivity |].
  destruct (body s x); simpl; [apply IH | reflexivity].
Qed.

(** Splits a hypothesis [bind r k = Ok b] into its two steps. *)
Ltac bind_inv H :=
  let a := fresh "a" in
  let Ha := fresh "Ha" in
  apply bind_Ok in H; destruct H as (a & Ha & H).

(** ** The translator *)

Section TranslatorFacts.

Context {float : Type} (rt : runtime float).

Local Abbreviation json := (json float).

Lemma py_contains_dict (k : string) (d : list (string * json)) (v : json) :
  dict_get k d = Some v -> py_contains k (JObj d) = Ok true.
Proof.
  intros H. unfold py_contains, dict_mem. now rewrite H.
Qed.

Lemma py_getitem_dict (k : string) (d : list (string * json)) (v : json) :
  dict_get k d = Some v -> py_getitem (JObj d) k = Ok v.
Proof.
  intros H. unfold py_getitem. now rewrite H.
Qed.

(** One round of the inner loop either skips the method or appends the
    tool of its operation. *)
Lemma method_tools_Ok (path : string) (item : json) (tools : list (Tool float))
      (m : string) (tools' : list (Tool float)) :
  method_tools rt path item tools m = Ok tools' ->
  (py_contains m item = Ok false /\ tools' = tools) \/
  (exists op t, py_contains m item = Ok true /\ py_getitem item m = Ok op /\
                operation_tool rt m path op = Ok t /\
                tools' = (tools ++ [t])%list).
Proof.
  unfold method_tools. intros H.
  bind_inv H. destruct a.
  - right. bind_inv H. bind_inv H. injection H as <-. eauto 8.
  - left. injection H as <-. auto.
Qed.

(** The inner loop keeps the tools it started from and lists one for each
    method present under the path. *)
Lemma inner_loop_lists (path : string) (item : json) (ms : list string) :
  forall tools tools',
    for_each (method_tools rt path item) ms tools = Ok tools' ->
    incl tools tools' /\
    forall m d op,
      In m ms -> item = JObj d -> dict_get m d = Some op ->
      exists t, In t tools' /\ operation_tool rt m path op = Ok t.
Proof.
  induction ms as [| m0 ms IH]; intros tools tools' H; simpl in H.
  - injection H as <-. split; [apply incl_refl | intros ? ? ? []].
  - bind_inv H. destruct (IH _ _ H) as [Hincl Hlist].
    apply method_tools_Ok in Ha as [[Hc ->] | (op0 & t0 & Hc & Hg & Ht & ->)].
    + split; [exact Hincl |].
      intros m d op [<- | Hin] -> Hd; [| eauto].
      rewrite (py_contains_dict _ _ _ Hd) in Hc. discriminate.
    + split; [eapply incl_tran; [apply incl_appl, incl_refl | exact Hincl] |].
      intros m d op [<- | Hin] -> Hd; [| eauto].
      rewrite (py_getitem_dict _ _ _ Hd) in Hg. injection Hg as <-.
      exists t0. split; [| exact Ht].
      apply Hincl, in_or_app. right. now left.
Qed.

(** The outer loop lists a tool for every operation of every path. *)
Lemma outer_loop_lists (items : list (string * json)) :
  forall tools tools',
    for_each (fun tools '(path, path_item) => path_tools rt path path_item tools)
             items tools = Ok tools' ->
    incl tools tools' /\
    forall path d m op,
      In (path, JObj d) items -> In m METHODS -> dict_get m d = Some op ->
      exists t, In t tools' /\ operation_tool rt m path op = Ok t.
Proof.
  induction items as [| [p0 i0] items IH]; intros tools tools' H; simpl in H.
  - injection H as <-. split; [apply incl_refl | intros ? ? ? ? []].
  - bind_inv H. destruct (IH _ _ H) as [Hincl Hlist].
    apply inner_loop_lists in Ha as [Hincl0 Hlist0].
    split; [eapply incl_tran; eassumption |].
    intros path d m op [E | Hin] Hm Hd; [| eauto].
    injection E as -> ->.
    destruct (Hlist0 m d op Hm eq_refl Hd) as (t & Ht & Hop).
    exists t. split; [apply Hincl, Ht | exact Hop].
Qed.

(** Every operation of the document has its tool in the list, when the
    translator returns one. *)
Lemma create_tools_lists (spec : list (string * json)) (tools : list (Tool float))
      (paths : list (string * json)) (path : string)
      (item : list (string * json)) (m : string) (op : json) :
  create_tools_from_openapi rt (Some spec) = Ok tools ->
  dict_get "paths" spec = Some (JObj paths) ->
  In (path, JObj item) paths -> In m METHODS -> dict_get m item = Some op ->
  exists t, In t tools /\ operation_tool rt m path op = Ok t.
Proof.
  intros H Hp Hin Hm Hd. unfold create_tools_from_openapi in H.
  unfold dict_mem in H. rewrite Hp in H.
  destruct spec as [| kv spec]; [discriminate |].
  cbn [truthy negb orb] in H.
  rewrite (py_getitem_dict _ _ _ Hp) in H. cbn [bind py_items] in H.
  apply outer_loop_lists in H as [_ Hlist]. eauto.
Qed.

(** The name of a tool is the operation's identifier, or the fallback
    when the operation has none. *)
Lemma operation_tool_name (m path : string) (op : list (string * json))
      (t : Tool float) :
  operation_tool rt m path (JObj op) = Ok t ->
  dict_get "operationId" op = Some (JStr (name t)) \/
  (dict_get "operationId" op = None /\ name t = fallback_name m path).
Proof.
  unfold operation_tool. intros H.
  bind_inv H. bind_inv H. bind_inv H. bind_inv H. bind_inv H.
  destruct a3 as [props req].
  unfold py_get in Ha.
  destruct (dict_get "operationId" op) as [v |] eqn:E;
    injection Ha as <-.
  - destruct v; try discriminate. injection H as <-. now left.
  - injection H as <-. right. auto.
Qed.

(** A document without a [paths] key has no tool. *)
Lemma no_paths_key_no_tool (spec : list (string * json)) :
  dict_get "paths" spec = None ->
  create_tools_from_openapi rt (Some spec) = Ok [].
Proof.
  intros H. unfold create_tools_from_openapi, dict_mem. rewrite H.
  now rewrite orb_true_r.
Qed.

(** C9. A document without a [paths] key, or whose [paths] collection is
    empty, yields the empty list of tools: [create_tools_from_openapi]
    returns [[]] and raises nothing. *)
Theorem create_tools_without_paths (spec : list (string * json)) :
  dict_get "paths" spec = None \/ dict_get "paths" spec = Some (JObj []) ->
  create_tools_from_openapi rt (Some spec) = Ok [].
Proof.
  intros [H | H]; [now apply no_paths_key_no_tool |].
  unfold create_tools_from_openapi, dict_mem. rewrite H.
  destruct spec as [| kv spec]; [discriminate |].
  cbn [truthy negb orb].
  now rewrite (py_getitem_dict _ _ _ H).
Qed.

(** C1 (amended). For every operation of the document,
    [create_tools_from_openapi] lists a tool whose name is the operation's
    identifier when it has one ([getTarget] gives [getTarget]) and
    otherwise the method, an underscore and the path with every slash
    replaced by an underscore and every other character, the placeholder
    braces included, kept: [GET /beacons/{id}] gives [get__beacons_{id}]. *)
Theorem create_tools_names (spec : list (string * json))
        (tools : list (Tool float)) (paths : list (string * json))
        (path : string) (item : list (string * json)) (m : string)
        (op : list (string * json)) :
  create_tools_from_openapi rt (Some spec) = Ok tools ->
  dict_get "paths" spec = Some (JObj paths) ->
  In (path, JObj item) paths -> In m METHODS ->
  dict_get m item = Some (JObj op) ->
  exists t,
    In t tools /\ operation_tool rt m path (JObj op) = Ok t /\
    (dict_get "operationId" op = None ->
     name t = m ++ "_" ++ Spec.slashes_to_underscores path) /\
    (forall s, dict_get "operationId" op = Some (JStr s) -> name t = s).
Proof.
  intros H Hp Hin Hm Hd.
  destruct (create_tools_lists _ _ _ _ _ _ _ H Hp Hin Hm Hd) as (t & Ht & Hop).
  exists t. repeat split; try assumption.
  - intros Hnone.
    destruct (operation_tool_name _ _ _ _ Hop) as [E | [_ E]]; [congruence |].
    rewrite E. unfold fallback_name. now rewrite PyStrFacts.replace_slash.
  - intros s Hs.
    destruct (operation_tool_name _ _ _ _ Hop) as [E | [E _]]; congruence.
Qed.

End TranslatorFacts.

(** C1, the witness: the three operations of [Sample.beacons]. *)
Lemma create_tools_names_witness :
  exists tools,
    create_tools_from_openapi Sample.rt (Some Sample.beacons) = Ok tools /\
    (exists t, In t tools /\ name t = "get__beacons_{id}") /\
    (exists t, In t tools /\ name t = "getTarget").
Proof.
  destruct (create_tools_from_openapi Sample.rt (Some Sample.beacons))
    as [tools | e] eqn:E; [| vm_compute in E; discriminate].
  exists tools. split; [reflexivity |]. split.
  - destruct (create_tools_names Sample.rt Sample.beacons tools _
                "/beacons/{id}" _ "get" _ E eq_refl
                (or_introl eq_refl) (or_introl eq_refl) eq_refl)
      as (t & Ht & _ & Hname & _).
    exists t. split; [exact Ht | exact (Hname eq_refl)].
  - destruct (create_tools_names Sample.rt Sample.beacons tools _
                "/targets" _ "get" _ E eq_refl
                (or_intror (or_introl eq_refl)) (or_introl eq_refl) eq_refl)
      as (t & Ht & _ & _ & Hname).
    exists t. split; [exact Ht | exact (Hname _ eq_refl)].
Defined.

(** C1 as stated fails: the tool of [GET /beacons/{id}] without an
    identifier is named [get__beacons_{id}], braces kept, and not
    [get__beacons__id_]. *)
Lemma fallback_name_keeps_braces :
  option_map (@name Empty_set)
    (match create_tools_from_openapi Sample.rt (Some Sample.beacons) with
     | Ok tools => hd_error tools
     | Raise _ => None
     end) = Some "get__beacons_{id}" /\
  "get__beacons_{id}" <> "get__beacons__id_".
Proof.
  split; [vm_compute; reflexivity | discriminate].
Qed.

(** ** The input schema *)

Section SchemaFacts.

Context {float : Type} (rt : runtime float).

Local Abbreviation json := (json float).
Local Abbreviation props := (list (json * property float)).

Lemma built_get_set_same {V} (s : string) (v : V) (d : list (json * V)) :
  built_get rt (JStr s) (built_set rt (JStr s) v d) = Some v.
Proof.
  induction d as [| [k x] d IH]; simpl.
  - now rewrite String.eqb_refl.
  - destruct (key_eqb rt k (JStr s)) eqn:E; simpl; rewrite E; auto.
Qed.

Lemma built_get_set_keeps {V} (k k' : json) (v : V) (d : list (json * V)) :
  built_get rt k d <> None -> built_get rt k (built_set rt k' v d) <> None.
Proof.
  induction d as [| [k0 x] d IH]; simpl; [congruence |].
  destruct (key_eqb rt k0 k') eqn:E'; simpl;
    destruct (key_eqb rt k0 k) eqn:E; auto; discriminate.
Qed.

Lemma built_set_idem {V} (s : string) (v : V) (d : list (json * V)) :
  built_set rt (JStr s) v (built_set rt (JStr s) v d)
  = built_set rt (JStr s) v d.
Proof.
  induction d as [| [k x] d IH]; simpl.
  - now rewrite String.eqb_refl.
  - destruct (key_eqb rt k (JStr s)) eqn:E; simpl; rewrite E;
      [reflexivity | now rewrite IH].
Qed.

(** One declared parameter becomes one property, under its name,
    whatever its location. *)
Lemma add_parameter_Ok (ps : props) (req : list json) (param : json)
      (ps' : props) (req' : list json) :
  add_parameter rt (ps, req) param = Ok (ps', req') ->
  exists p pr,
    param = JObj p /\
    ps' = built_set rt (match dict_get "name" p with
                        | Some n => n
                        | None => JNull
                        end) pr ps.
Proof.
  unfold add_parameter. intros H.
  bind_inv H. destruct param as [| | | | | | p]; try discriminate.
  bind_inv H. bind_inv H. bind_inv H. bind_inv H. bind_inv H.
  injection H as <- _.
  unfold py_setitem in Ha3. destruct (hashable a); [| discriminate].
  injection Ha3 as <-.
  exists p. eexists. split; [reflexivity |].
  unfold py_get in Ha. destruct (dict_get "name" p); injection Ha as <-;
    reflexivity.
Qed.

Lemma add_parameter_loop (params : list json) :
  forall (ps : props) (req : list json) (ps' : props) (req' : list json),
    for_each (add_parameter rt) params (ps, req) = Ok (ps', req') ->
    (forall k, built_get rt k ps <> None -> built_get rt k ps' <> None) /\
    (forall p n, In (JObj p) params -> dict_get "name" p = Some (JStr n) ->
                 built_get rt (JStr n) ps' <> None).
Proof.
  induction params as [| param params IH]; intros ps req ps' req' H;
    simpl in H.
  - injection H as <- <-. split; [auto | intros ? ? []].
  - bind_inv H. destruct a as [ps1 req1].
    destruct (IH _ _ _ _ H) as [Hkeep Hnew].
    apply add_parameter_Ok in Ha as (p0 & pr & -> & ->).
    split.
    + intros k Hk. now apply Hkeep, built_get_set_keeps.
    + intros p n [E | Hin] Hn; [| eauto].
      injection E as ->. apply Hkeep. rewrite Hn.
      rewrite built_get_set_same. discriminate.
Qed.

(** The loop on the content entries: recognised entries all write the one
    property [requestBody], and each appends to [required] when the body
    is required. *)
Lemma add_content_loop (rb : list (string * json))
      (entries : list (string * json)) :
  forall (ps : props) (req : list json) (ps' : props) (req' : list json),
    for_each (add_content rt (JObj rb)) entries (ps, req) = Ok (ps', req') ->
    let n := length (filter Spec.recognised entries) in
    ps' = (if Nat.eqb n 0 then ps
           else built_set rt (JStr "requestBody") body_property ps) /\
    req' = (req ++ (if Spec.body_required rt rb
                    then repeat (JStr "requestBody") n else []))%list.
Proof.
  induction entries as [| [ct cd] entries IH]; intros ps req ps' req' H;
    simpl in H.
  - injection H as <- <-. simpl. split; [reflexivity |].
    destruct (Spec.body_required rt rb); now rewrite app_nil_r.
  - bind_inv H. destruct a as [ps1 req1].
    destruct (IH _ _ _ _ H) as [Hps Hreq]. clear IH H.
    unfold add_content in Ha. cbn [filter].
    destruct (PyStr.contains "application/json" ct) eqn:Ect.
    + bind_inv Ha. destruct a.
      * assert (Hrec : Spec.recognised (ct, cd) = true)
          by (unfold Spec.recognised; cbn [fst snd]; now rewrite Ect, Ha0).
        rewrite Hrec. cbn [length Nat.eqb].
        cbn [py_setitem hashable bind py_get] in Ha.
        assert (E : ps1 = built_set rt (JStr "requestBody") body_property ps
                    /\ req1 = (req ++ (if Spec.body_required rt rb
                                       then [JStr "requestBody"] else []))%list).
        { unfold Spec.body_required.
          destruct (dict_get "required" rb) as [flag |];
            cbn [bind] in Ha; injection Ha as <- <-.
          - split; [reflexivity |].
            destruct (truthy rt flag); [reflexivity | now rewrite app_nil_r].
          - split; [reflexivity | now rewrite app_nil_r]. }
        destruct E as [-> ->]. split.
        -- rewrite Hps.
           destruct (Nat.eqb _ 0); [reflexivity | apply built_set_idem].
        -- rewrite Hreq. rewrite <- app_assoc.
           destruct (Spec.body_required rt rb); reflexivity.
      * assert (Hrec : Spec.recognised (ct, cd) = false)
          by (unfold Spec.recognised; cbn [fst snd]; now rewrite Ect, Ha0).
        rewrite Hrec. injection Ha as <- <-. auto.
    + assert (Hrec : Spec.recognised (ct, cd) = false)
        by (unfold Spec.recognised; cbn [fst snd]; now rewrite Ect).
      rewrite Hrec. injection Ha as <- <-. auto.
Qed.

(** The request-body step keeps every property it found. *)
Lemma add_request_body_keeps (operation : json) (ps : props) (req : list json)
      (ps' : props) (req' : list json) :
  add_request_body rt operation (ps, req) = Ok (ps', req') ->
  forall k, built_get rt k ps <> None -> built_get rt k ps' <> None.
Proof.
  unfold add_request_body. intros H.
  bind_inv H. destruct a; [| injection H as <- _; auto].
  bind_inv H. bind_inv H. destruct a0; [| injection H as <- _; auto].
  bind_inv H. bind_inv H.
  destruct a as [| | | | | | rb]; try discriminate.
  apply add_content_loop in H as [-> _].
  intros k Hk. destruct (Nat.eqb _ 0); [exact Hk |].
  now apply built_get_set_keeps.
Qed.

Lemma no_recognised_entry (entries : list (string * json)) :
  Nat.eqb (length (filter Spec.recognised entries)) 0
  = negb (existsb Spec.recognised entries).
Proof.
  induction entries as [| e entries IH]; simpl; [reflexivity |].
  destruct (Spec.recognised e); simpl; [reflexivity | exact IH].
Qed.

(** What [operation_tool] computes, step by step. *)
Lemma operation_tool_Ok (m path : string) (operation : json) (t : Tool float) :
  operation_tool rt m path operation = Ok t ->
  exists ps req ps' req',
    add_parameters rt operation ([], []) = Ok (ps, req) /\
    add_request_body rt operation (ps, req) = Ok (ps', req') /\
    properties (inputSchema t) = ps' /\ Spec.required_list t = req'.
Proof.
  unfold operation_tool. intros H.
  bind_inv H. bind_inv H. bind_inv H. bind_inv H. bind_inv H.
  destruct a2 as [ps req]. destruct a3 as [ps' req'].
  exists ps, req, ps', req'. repeat split; try assumption;
    destruct a; try discriminate; injection H as <-;
    [reflexivity | now destruct req'].
Qed.

(** The request-body step of one operation. *)
Lemma request_body_step (m path : string) (op : list (string * json))
        (t : Tool float) (rb content : list (string * json)) :
  operation_tool rt m path (JObj op) = Ok t ->
  dict_get "requestBody" op = Some (JObj rb) ->
  dict_get "content" rb = Some (JObj content) ->
  exists ps req,
    add_parameters rt (JObj op) ([], []) = Ok (ps, req) /\
    (existsb Spec.recognised content = true ->
     properties (inputSchema t)
     = built_set rt (JStr "requestBody") body_property ps /\
     built_get rt (JStr "requestBody") (properties (inputSchema t))
     = Some body_property /\
     (In (JStr "requestBody") (Spec.required_list t) <->
      Spec.body_required rt rb = true \/ In (JStr "requestBody") req)) /\
    (existsb Spec.recognised content = false ->
     properties (inputSchema t) = ps /\ Spec.required_list t = req).
Proof.
  intros H Hrb Hc.
  apply operation_tool_Ok in H as (ps & req & ps' & req' & Hp & Hb & <- & <-).
  exists ps, req. split; [exact Hp |].
  unfold add_request_body in Hb.
  rewrite (py_contains_dict _ _ _ Hrb), (py_getitem_dict _ _ _ Hrb) in Hb.
  cbn [bind] in Hb.
  rewrite (py_contains_dict _ _ _ Hc), (py_getitem_dict _ _ _ Hc) in Hb.
  cbn [bind py_items] in Hb.
  apply add_content_loop in Hb as [Hps Hreq].
  rewrite no_recognised_entry in Hps.
  split; intros Hex; rewrite Hex in Hps; cbn [negb] in Hps.
  - split; [exact Hps |]. split; [rewrite Hps; apply built_get_set_same |].
    rewrite Hreq, in_app_iff.
    destruct (length (filter Spec.recognised content)) as [| n] eqn:En.
    + pose proof (no_recognised_entry content) as Hn.
      rewrite En, Hex in Hn. discriminate.
    + destruct (Spec.body_required rt rb); simpl; intuition discriminate.
  - split; [exact Hps |]. rewrite Hreq.
    pose proof (no_recognised_entry content) as Hn. rewrite Hex in Hn.
    apply Nat.eqb_eq in Hn. rewrite Hn.
    destruct (Spec.body_required rt rb); apply app_nil_r.
Qed.

(** Every declared parameter with a name is a property of the tool,
    whatever its location. *)
Lemma declared_parameter_listed (m path : string) (op : list (string * json))
      (t : Tool float) (params : list json) (p : list (string * json))
      (n : string) :
  operation_tool rt m path (JObj op) = Ok t ->
  dict_get "parameters" op = Some (JArr params) ->
  In (JObj p) params -> dict_get "name" p = Some (JStr n) ->
  built_get rt (JStr n) (properties (inputSchema t)) <> None.
Proof.
  intros H Hps Hin Hn.
  apply operation_tool_Ok in H as (ps & req & ps' & req' & Hp & Hb & <- & _).
  unfold add_parameters in Hp.
  rewrite (py_contains_dict _ _ _ Hps), (py_getitem_dict _ _ _ Hps) in Hp.
  cbn [bind py_iter] in Hp.
  apply add_parameter_loop in Hp as [_ Hnew].
  eapply add_request_body_keeps; eauto.
Qed.

(** C5 (amended). For an operation that declares a request body with a
    content collection: when some content entry has a media type
    containing [application/json] and carries a [schema],
    [create_tools_from_openapi] adds to the properties of the declared
    parameters the one property [requestBody], of type [object], and
    [requestBody] is in the required list if and only if the body is
    marked required (or a required declared parameter has that name);
    when no entry is such, the non-JSON and the schemaless entries are
    ignored and the schema is that of the declared parameters. *)
Theorem create_tools_request_body (spec : list (string * json))
        (tools : list (Tool float)) (paths : list (string * json))
        (path : string) (item : list (string * json)) (m : string)
        (op rb content : list (string * json)) :
  create_tools_from_openapi rt (Some spec) = Ok tools ->
  dict_get "paths" spec = Some (JObj paths) ->
  In (path, JObj item) paths -> In m METHODS ->
  dict_get m item = Some (JObj op) ->
  dict_get "requestBody" op = Some (JObj rb) ->
  dict_get "content" rb = Some (JObj content) ->
  exists t ps req,
    In t tools /\ operation_tool rt m path (JObj op) = Ok t /\
    add_parameters rt (JObj op) ([], []) = Ok (ps, req) /\
    (existsb Spec.recognised content = true ->
     properties (inputSchema t)
     = built_set rt (JStr "requestBody") body_property ps /\
     built_get rt (JStr "requestBody") (properties (inputSchema t))
     = Some body_property /\
     (In (JStr "requestBody") (Spec.required_list t) <->
      Spec.body_required rt rb = true \/ In (JStr "requestBody") req)) /\
    (existsb Spec.recognised content = false ->
     properties (inputSchema t) = ps /\ Spec.required_list t = req).
Proof.
  intros H Hp Hin Hm Hd Hrb Hc.
  destruct (create_tools_lists rt _ _ _ _ _ _ _ H Hp Hin Hm Hd)
    as (t & Ht & Hop).
  destruct (request_body_step _ _ _ _ _ _ Hop Hrb Hc) as (ps & req & Hrest).
  exists t, ps, req. auto.
Qed.

End SchemaFacts.

(** C5, the witness: [POST /beacons/{id}/kill] of [Sample.beacons], whose
    required body offers a plain-text and a JSON content. *)
Lemma create_tools_request_body_witness :
  exists tools,
    create_tools_from_openapi Sample.rt (Some Sample.beacons) = Ok tools /\
    exists t,
      In t tools /\ name t = "killBeacon" /\
      built_get Sample.rt (JStr "requestBody") (properties (inputSchema t))
      = Some body_property /\
      In (JStr "requestBody") (Spec.required_list t).
Proof.
  destruct (create_tools_from_openapi Sample.rt (Some Sample.beacons))
    as [tools | e] eqn:E; [| vm_compute in E; discriminate].
  exists tools. split; [reflexivity |].
  destruct (create_tools_request_body Sample.rt Sample.beacons tools _
              "/beacons/{id}/kill" _ "post" _ Sample.kill_body_fields
              Sample.kill_content E eq_refl
              (or_intror (or_intror (or_introl eq_refl)))
              (or_intror (or_introl eq_refl)) eq_refl eq_refl eq_refl)
    as (t & ps & req & Ht & Hop & _ & Hyes & _).
  destruct (Hyes eq_refl) as (_ & Hget & Hreq).
  exists t. split; [exact Ht |]. split.
  - destruct (operation_tool_name Sample.rt _ _ _ _ Hop) as [Hid | [Hid _]];
      [injection Hid as <-; reflexivity | discriminate].
  - split; [exact Hget | apply Hreq; left; reflexivity].
Defined.

(** C5 as stated fails: [POST /tasks] of [Sample.schemaless] declares a
    required request body whose content includes [application/json], yet
    its tool has no [requestBody] property and nothing required. *)
Lemma schemaless_body_adds_nothing :
  match create_tools_from_openapi Sample.rt (Some Sample.schemaless) with
  | Ok [t] =>
      built_get Sample.rt (JStr "requestBody") (properties (inputSchema t))
      = None /\ required (inputSchema t) = None
  | _ => False
  end.
Proof.
  vm_compute. split; reflexivity.
Qed.

(** ** The invoker *)

Section InvokerFacts.

Context {float : Type} (rt : runtime float).

Local Abbreviation json := (json float).
Local Abbreviation query := (list (json * json)).

Lemma io_bind_lift {A B} (r : result A) (k : A -> io B) :
  io_bind (lift (float := float) r) k
  = match r with
    | Ok a => k a
    | Raise e => ([], Raise e)
    end.
Proof.
  destruct r as [a | e]; simpl; [now destruct (k a) | reflexivity].
Qed.

(** Returning from inside the loops and unwrapping after them is the
    invocation itself. *)
Lemma io_bind_returned {A} (m : io (float := float) A) (k : io A) :
  io_bind (io_bind m (fun r => io_ret (Some r)))
          (fun r => match r with
                    | Some v => io_ret v
                    | None => k
                    end) = m.
Proof.
  destruct m as [t [a | e]]; simpl; [now rewrite !app_nil_r | reflexivity].
Qed.

Lemma io_bind_returned_again {A} (m : io (float := float) A)
      (k : io (option A)) :
  io_bind (io_bind m (fun r => io_ret (Some r)))
          (fun r => match r with
                    | Some v => io_ret (Some v)
                    | None => k
                    end) = io_bind m (fun r => io_ret (Some r)).
Proof.
  destruct m as [t [a | e]]; simpl; [now rewrite !app_nil_r | reflexivity].
Qed.

(** *** Argument partition *)

Lemma eq_str_true (v : json) (s : string) : eq_str v s = true -> v = JStr s.
Proof.
  destruct v; simpl; try discriminate.
  intros H. apply String.eqb_eq in H. now subst.
Qed.

(** A parameter located elsewhere than in [path] or [query] leaves the
    path and the query parameters as they are. *)
Lemma partition_argument_other (arguments : list (string * json))
      (st : string * query) (p : list (string * json)) (n : string) :
  dict_get "name" p = Some (JStr n) ->
  dict_get "in" p <> Some (JStr "path") ->
  dict_get "in" p <> Some (JStr "query") ->
  partition_argument rt arguments st (JObj p) = Ok st.
Proof.
  intros Hn Hpath Hquery. destruct st as [ap q].
  unfold partition_argument, py_get. rewrite Hn.
  cbn [bind arg_lookup].
  assert (E : forall s, dict_get "in" p <> Some (JStr s) ->
                        eq_str (match dict_get "in" p with
                                | Some x => x
                                | None => JNull
                                end) s = false).
  { intros s Hs. destruct (eq_str _ s) eqn:Ev; [| reflexivity].
    apply eq_str_true in Ev.
    destruct (dict_get "in" p); [subst; now elim Hs | discriminate]. }
  pose proof (E "path" Hpath) as E1. pose proof (E "query" Hquery) as E2.
  destruct (dict_get "in" p) as [loc |]; cbn [bind];
    (destruct (dict_get n arguments); [| reflexivity]);
    now rewrite E1, E2.
Qed.

(** One round of the partition does to the path what the specification
    says. *)
Lemma partition_argument_path (arguments : list (string * json))
      (ap : string) (q : query) (param : json) (ap' : string) (q' : query) :
  partition_argument rt arguments (ap, q) param = Ok (ap', q') ->
  ap' = Spec.substitute rt arguments ap param.
Proof.
  unfold partition_argument. intros H.
  bind_inv H. destruct param as [| | | | | | p]; try discriminate.
  bind_inv H. bind_inv H.
  unfold py_get in Ha, Ha0. unfold Spec.substitute.
  destruct (dict_get "name" p) as [nm |]; injection Ha as <-;
    destruct (dict_get "in" p) as [loc |]; injection Ha0 as <-.
  - destruct nm; cbn [arg_lookup] in Ha1; try discriminate;
      injection Ha1 as <-; try (injection H as <- _; reflexivity).
    destruct (dict_get s arguments) as [value |].
    + destruct loc; cbn [eq_str] in H;
        try (injection H as <- _; reflexivity).
      destruct (String.eqb s0 "path").
      * injection H as <- _. reflexivity.
      * destruct (String.eqb s0 "query"); [bind_inv H |];
          injection H as <- _; reflexivity.
    + injection H as <- _.
      destruct loc; try reflexivity. now destruct (String.eqb _ "path").
  - destruct nm; cbn [arg_lookup] in Ha1; try discriminate;
      injection Ha1 as <-; try (injection H as <- _; reflexivity).
    cbn [eq_str] in H.
    destruct (dict_get s arguments); injection H as <- _; reflexivity.
  - cbn [arg_lookup] in Ha1. injection Ha1 as <-.
    injection H as <- _. reflexivity.
  - cbn [arg_lookup] in Ha1. injection Ha1 as <-.
    injection H as <- _. reflexivity.
Qed.

Lemma partition_loop_path (arguments : list (string * json))
      (params : list json) :
  forall (ap : string) (q : query) (ap' : string) (q' : query),
    for_each (partition_argument rt arguments) params (ap, q) = Ok (ap', q') ->
    ap' = fold_left (Spec.substitute rt arguments) params ap.
Proof.
  induction params as [| param params IH]; intros ap q ap' q' H; simpl in H.
  - now injection H as <- _.
  - bind_inv H. destruct a as [ap1 q1].
    apply partition_argument_path in Ha as ->. now apply IH in H.
Qed.

(** The partition leaves the path with every declared parameter
    substituted in turn. *)
Lemma partition_arguments_path (path : string) (operation : json)
      (arguments : list (string * json)) (ap : string) (q : query) :
  partition_arguments rt path operation arguments = Ok (ap, q) ->
  ap = fold_left (Spec.substitute rt arguments)
                 (Spec.declared_parameters operation) path.
Proof.
  unfold partition_arguments. intros H.
  bind_inv H. destruct a.
  - bind_inv H. bind_inv H.
    destruct operation as [| | | | | | o]; try discriminate.
    cbn [py_getitem] in Ha0. cbn [Spec.declared_parameters].
    destruct (dict_get "parameters" o) as [v |]; [| discriminate].
    injection Ha0 as <-.
    destruct v as [| | | | s | l | d]; try discriminate;
      cbn [py_iter] in Ha1; injection Ha1 as <-.
    + destruct s as [| c s]; [now injection H as <- _ | discriminate].
    + now apply partition_loop_path in H.
    + destruct d as [| [k x] d]; [now injection H as <- _ | discriminate].
  - injection H as <- _.
    destruct operation as [| | | | | | o]; try reflexivity.
    cbn [py_contains] in Ha. injection Ha as Ha. unfold dict_mem in Ha.
    cbn [Spec.declared_parameters].
    destruct (dict_get "parameters" o); [discriminate | reflexivity].
Qed.

(** *** Dispatch and normalisation *)

(** Once the arguments are partitioned, an invocation is one request and
    the normalised reply of the client. *)
Lemma invoke_spec (c : client float) (m path : string) (operation : json)
      (arguments : list (string * json)) :
  invoke rt c m path operation arguments
  = match partition_arguments rt path operation arguments with
    | Raise e => ([], Raise e)
    | Ok (ap, q) =>
        match Spec.verb_of m with
        | Some v =>
            let req := Spec.request_of v ap q (Spec.body_argument arguments) in
            ([req], Spec.normalise rt (c req))
        | None => ([], Raise (UnboundLocalError "response"))
        end
    end.
Proof.
  unfold invoke. rewrite io_bind_lift.
  destruct (partition_arguments rt path operation arguments)
    as [[ap q] | e]; [| reflexivity].
  fold (Spec.body_argument arguments).
  unfold dispatch, Spec.verb_of.
  assert (N : forall req : request float,
             try_except
               (io_bind (send c req)
                  (fun response =>
                     io_bind (lift (raise_for_status rt response))
                       (fun _ =>
                          try_except (lift (response_json response))
                            any_exception
                            (fun _ => io_ret (JStr (text response))))))
               is_HTTPError
               (fun e => lift (Raise (Exception
                                        ("API call failed: " ++ exn_str rt e))))
             = ([req], Spec.normalise rt (c req))).
  { intros req. unfold send, Spec.normalise, Spec.success, Spec.payload.
    destruct (c req) as [r | e]; cbn [io_bind].
    - unfold raise_for_status, response_json.
      destruct ((200 <=? status_code r)%Z && (status_code r <=? 299)%Z);
        [destruct (json_payload r) |]; reflexivity.
    - destruct e; reflexivity. }
  destruct (String.eqb m "get"); [apply N |].
  destruct (String.eqb m "post"); [apply N |].
  destruct (String.eqb m "put"); [apply N |].
  destruct (String.eqb m "delete"); [apply N |].
  destruct (String.eqb m "patch"); [apply N | reflexivity].
Qed.

(** An invocation issues at most one request; when it issues one, the
    request goes to the substituted path and the result is the
    normalised reply. *)
Lemma invoke_request (c : client float) (m path : string) (operation : json)
      (arguments : list (string * json)) (req : request float) :
  fst (invoke rt c m path operation arguments) = [req] ->
  req_path req = fold_left (Spec.substitute rt arguments)
                           (Spec.declared_parameters operation) path /\
  Spec.verb_of m = Some (req_verb req) /\
  snd (invoke rt c m path operation arguments) = Spec.normalise rt (c req).
Proof.
  rewrite invoke_spec.
  destruct (partition_arguments rt path operation arguments)
    as [[ap q] | e] eqn:E; [| discriminate].
  destruct (Spec.verb_of m) as [v |]; [| discriminate].
  cbn [fst snd]. intros H. injection H as <-.
  apply partition_arguments_path in E as ->. auto.
Qed.

(** *** Resolution *)

(** The scan is resolution followed by the invocation of what it
    found. *)
Lemma scan_methods_resolve (c : client float) (operation_id : string)
      (arguments : list (string * json)) (path : string) (item : json)
      (ms : list string) :
  scan_methods rt c operation_id arguments path item ms
  = match Spec.resolve_methods operation_id path item ms with
    | Raise e => ([], Raise e)
    | Ok None => ([], Ok None)
    | Ok (Some (p, m, operation)) =>
        io_bind (invoke rt c m p operation arguments)
                (fun r => io_ret (Some r))
    end.
Proof.
  induction ms as [| m ms IH]; [reflexivity |].
  cbn [scan_methods Spec.resolve_methods]. rewrite io_bind_lift.
  destruct (py_contains m item) as [[|] | e]; cbn [bind];
    [| exact IH | reflexivity].
  rewrite io_bind_lift.
  destruct (py_getitem item m) as [operation | e]; cbn [bind];
    [| reflexivity].
  rewrite io_bind_lift.
  destruct (py_get operation "operationId" JNull) as [found | e]; cbn [bind];
    [| reflexivity].
  destruct (eq_str found operation_id); [reflexivity | exact IH].
Qed.

Lemma scan_paths_resolve (c : client float) (operation_id : string)
      (arguments : list (string * json)) (items : list (string * json)) :
  scan_paths rt c operation_id arguments items
  = match Spec.resolve_paths operation_id items with
    | Raise e => ([], Raise e)
    | Ok None => ([], Ok None)
    | Ok (Some (p, m, operation)) =>
        io_bind (invoke rt c m p operation arguments)
                (fun r => io_ret (Some r))
    end.
Proof.
  induction items as [| [path item] items IH]; [reflexivity |].
  cbn [scan_paths Spec.resolve_paths]. rewrite scan_methods_resolve.
  destruct (Spec.resolve_methods operation_id path item METHODS)
    as [[[[p m] operation] |] | e]; cbn [bind].
  - apply io_bind_returned_again.
  - rewrite <- IH. cbn [io_bind].
    now destruct (scan_paths rt c operation_id arguments items).
  - reflexivity.
Qed.

(** [call_api_operation] on a loaded, non-empty document. *)
Lemma call_api_operation_resolve (c : client float)
      (spec : list (string * json)) (operation_id : string)
      (arguments : list (string * json)) :
  spec <> [] ->
  call_api_operation rt (Some c) (Some spec) operation_id arguments
  = match Spec.resolve spec operation_id with
    | Raise e => ([], Raise e)
    | Ok None => ([], Raise (operation_not_found operation_id))
    | Ok (Some (p, m, operation)) => invoke rt c m p operation arguments
    end.
Proof.
  intros Hne. unfold call_api_operation, Spec.resolve.
  destruct spec as [| kv spec]; [congruence |].
  cbn [truthy negb]. rewrite io_bind_lift.
  destruct (py_getitem (JObj (kv :: spec)) "paths") as [paths | e];
    cbn [bind]; [| reflexivity].
  rewrite io_bind_lift.
  destruct (py_items paths) as [items | e]; cbn [bind]; [| reflexivity].
  rewrite scan_paths_resolve.
  destruct (Spec.resolve_paths operation_id items)
    as [[[[p m] operation] |] | e]; try reflexivity.
  apply io_bind_returned.
Qed.

(** What resolution finds is an operation of the document that declares
    the requested identifier. *)
Lemma resolve_methods_found (operation_id path : string) (item : json)
      (ms : list string) (p m : string) (operation : json) :
  Spec.resolve_methods operation_id path item ms = Ok (Some (p, m, operation)) ->
  p = path /\ In m ms /\ py_getitem item m = Ok operation /\
  exists o, operation = JObj o /\
            dict_get "operationId" o = Some (JStr operation_id).
Proof.
  induction ms as [| m0 ms IH]; [discriminate |].
  cbn [Spec.resolve_methods]. intros H.
  bind_inv H. destruct a.
  - bind_inv H. bind_inv H.
    destruct (eq_str a0 operation_id) eqn:E.
    + injection H as <- <- <-. apply eq_str_true in E. subst a0.
      repeat split; [now left | exact Ha0 |].
      destruct a as [| | | | | | o]; try discriminate.
      exists o. split; [reflexivity |].
      cbn [py_get] in Ha1. destruct (dict_get "operationId" o);
        [now injection Ha1 as -> | discriminate].
    + destruct (IH H) as (-> & Hin & Hrest). repeat split; [now right | |];
        apply Hrest.
  - destruct (IH H) as (-> & Hin & Hrest). repeat split; [now right | |];
      apply Hrest.
Qed.

Lemma resolve_paths_found (operation_id : string)
      (items : list (string * json)) (p m : string) (operation : json) :
  Spec.resolve_paths operation_id items = Ok (Some (p, m, operation)) ->
  exists item o,
    In (p, item) items /\ In m METHODS /\ py_getitem item m = Ok operation /\
    operation = JObj o /\ dict_get "operationId" o = Some (JStr operation_id).
Proof.
  induction items as [| [path item] items IH]; [discriminate |].
  cbn [Spec.resolve_paths]. intros H. bind_inv H.
  destruct a as [[[p0 m0] op0] |].
  - injection H as -> -> ->.
    apply resolve_methods_found in Ha as (-> & Hin & Hg & o & -> & Ho).
    exists item, o. repeat split; auto. now left.
  - destruct (IH H) as (item' & o & Hin & Hrest).
    exists item', o. split; [now right | exact Hrest].
Qed.

(** In a document the scan reads without a fault, resolution finds an
    operation exactly when one declares the identifier. *)
Lemma resolve_methods_wf (operation_id path : string)
      (d : list (string * json)) (ms : list string) :
  (forall m, In m ms -> match dict_get m d with
                        | Some (JObj _) | None => True
                        | Some _ => False
                        end) ->
  (Spec.item_declares operation_id (JObj d) ms = false ->
   Spec.resolve_methods operation_id path (JObj d) ms = Ok None) /\
  (Spec.item_declares operation_id (JObj d) ms = true ->
   exists m o, Spec.resolve_methods operation_id path (JObj d) ms
               = Ok (Some (path, m, JObj o))).
Proof.
  induction ms as [| m ms IH]; intros Hwf.
  - split; [reflexivity | discriminate].
  - destruct IH as [IHn IHy]; [intros m' Hm'; apply Hwf; now right |].
    pose proof (Hwf m (or_introl eq_refl)) as Hm.
    cbn [Spec.resolve_methods Spec.item_declares existsb py_contains bind].
    unfold dict_mem. cbn [py_getitem].
    destruct (dict_get m d) as [v |]; cbn [bind orb]; [| split; assumption].
    destruct v as [| | | | | | o]; try contradiction.
    cbn [py_get Spec.declares].
    destruct (dict_get "operationId" o) as [found |]; cbn [bind eq_str].
    + destruct (eq_str found operation_id); cbn [orb];
        [split; [discriminate | eauto] | split; assumption].
    + split; assumption.
Qed.

Lemma wf_item_methods (d : list (string * json)) :
  Spec.wf_item (JObj d) = true ->
  forall m, In m METHODS -> match dict_get m d with
                            | Some (JObj _) | None => True
                            | Some _ => False
                            end.
Proof.
  unfold Spec.wf_item. intros H m Hm.
  rewrite forallb_forall in H. specialize (H m Hm).
  destruct (dict_get m d) as [[| | | | | |] |]; try discriminate; exact I.
Qed.

Lemma resolve_paths_wf (operation_id : string) (items : list (string * json)) :
  Spec.wf_paths items = true ->
  (Spec.declared operation_id items = false ->
   Spec.resolve_paths operation_id items = Ok None) /\
  (Spec.declared operation_id items = true ->
   exists p m o, Spec.resolve_paths operation_id items
                 = Ok (Some (p, m, JObj o))).
Proof.
  induction items as [| [path item] items IH]; intros Hwf.
  - split; [reflexivity | discriminate].
  - cbn [Spec.wf_paths forallb snd] in Hwf.
    apply andb_true_iff in Hwf as [Hitem Hrest].
    destruct (IH Hrest) as [IHn IHy].
    destruct item as [| | | | | | d]; try discriminate.
    destruct (resolve_methods_wf operation_id path d METHODS
                (wf_item_methods d Hitem)) as [Hn Hy].
    cbn [Spec.resolve_paths Spec.declared existsb snd].
    destruct (Spec.item_declares operation_id (JObj d) METHODS); cbn [orb].
    + split; [discriminate | intros _].
      destruct (Hy eq_refl) as (m & o & ->). cbn [bind]. eauto.
    + rewrite (Hn eq_refl). cbn [bind]. split; assumption.
Qed.

(** With no operation declaring the identifier, the call ends in the
    operation-not-found error and issues no request. *)
Lemma call_api_operation_not_found (c : client float)
      (spec paths : list (string * json)) (operation_id : string)
      (arguments : list (string * json)) :
  dict_get "paths" spec = Some (JObj paths) ->
  Spec.wf_paths paths = true ->
  Spec.declared operation_id paths = false ->
  call_api_operation rt (Some c) (Some spec) operation_id arguments
  = ([], Raise (operation_not_found operation_id)).
Proof.
  intros Hp Hwf Hd.
  rewrite call_api_operation_resolve by (destruct spec; discriminate).
  unfold Spec.resolve. cbn [py_getitem]. rewrite Hp. cbn [bind py_items].
  destruct (resolve_paths_wf operation_id paths Hwf) as [Hn _].
  now rewrite (Hn Hd).
Qed.

(** C3 (amended). For every operation that lacks an [operationId], in a
    document the scan reads without a fault, [call_api_operation] with the
    synthesized fallback name never resolves to that operation: when no
    operation of the document declares that name as its [operationId]
    the call ends in the operation-not-found error without a request;
    when one does, the call is the invocation of that other operation. *)
Theorem fallback_name_resolution (c : client float)
        (spec paths : list (string * json)) (path : string)
        (item : list (string * json)) (m : string)
        (op : list (string * json)) (arguments : list (string * json)) :
  dict_get "paths" spec = Some (JObj paths) ->
  Spec.wf_paths paths = true ->
  In (path, JObj item) paths -> In m METHODS ->
  dict_get m item = Some (JObj op) ->
  dict_get "operationId" op = None ->
  (Spec.declared (fallback_name m path) paths = false ->
   call_api_operation rt (Some c) (Some spec) (fallback_name m path) arguments
   = ([], Raise (operation_not_found (fallback_name m path)))) /\
  (Spec.declared (fallback_name m path) paths = true ->
   exists path' item' m' op',
     In (path', item') paths /\ In m' METHODS /\
     py_getitem item' m' = Ok (JObj op') /\
     dict_get "operationId" op' = Some (JStr (fallback_name m path)) /\
     op' <> op /\
     call_api_operation rt (Some c) (Some spec) (fallback_name m path)
                        arguments
     = invoke rt c m' path' (JObj op') arguments).
Proof.
  intros Hp Hwf Hin Hm Hd Hnone. split; intros Hdecl.
  - now apply call_api_operation_not_found with (paths := paths).
  - rewrite call_api_operation_resolve by (destruct spec; discriminate).
    unfold Spec.resolve. cbn [py_getitem]. rewrite Hp. cbn [bind py_items].
    destruct (resolve_paths_wf (fallback_name m path) paths Hwf) as [_ Hy].
    destruct (Hy Hdecl) as (p' & m' & o' & E). rewrite E.
    apply resolve_paths_found in E
      as (item' & o & Hin' & Hm' & Hg & Ho & Hid).
    injection Ho as <-.
    exists p', item', m', o'. repeat split; auto. congruence.
Qed.

(** C4. When [call_api_operation] dispatches a request, it goes to the
    path template of the resolved operation in which, for every declared
    parameter located in [path] whose name is in the argument bag, the
    literal placeholder [{name}] is replaced by the stringified argument
    value, unescaped: [/beacons/{id}/kill] with [{id: "42"}] is requested
    at [/beacons/42/kill]. *)
Theorem call_api_operation_substitutes_path (c : client float)
        (spec : list (string * json)) (operation_id : string)
        (arguments : list (string * json)) (req : request float) :
  fst (call_api_operation rt (Some c) (Some spec) operation_id arguments)
  = [req] ->
  (exists path m operation,
     Spec.resolve spec operation_id = Ok (Some (path, m, operation)) /\
     Spec.verb_of m = Some (req_verb req) /\
     req_path req = fold_left (Spec.substitute rt arguments)
                              (Spec.declared_parameters operation) path) /\
  (forall actual_path p n value,
     dict_get "name" p = Some (JStr n) ->
     dict_get "in" p = Some (JStr "path") ->
     dict_get n arguments = Some value ->
     Spec.substitute rt arguments actual_path (JObj p)
     = PyStr.replace ("{" ++ n ++ "}") (py_str rt value) actual_path).
Proof.
  intros H. split.
  - destruct spec as [| kv spec]; [discriminate |].
    rewrite call_api_operation_resolve in H by discriminate.
    destruct (Spec.resolve (kv :: spec) operation_id)
      as [[[[path m] operation] |] | e]; try discriminate.
    apply invoke_request in H as (Hpath & Hverb & _).
    exists path, m, operation. auto.
  - intros actual_path p n value Hn Hloc Hv.
    unfold Spec.substitute. rewrite Hn, Hloc, Hv. reflexivity.
Qed.

(** C8. When [call_api_operation] receives a response with a status from
    200 to 299, its result is the JSON-decoded payload when decoding
    succeeds and the raw response text otherwise; neither is an error. *)
Theorem call_api_operation_success (c : client float)
        (spec : list (string * json)) (operation_id : string)
        (arguments : list (string * json)) (req : request float)
        (resp : response float) :
  fst (call_api_operation rt (Some c) (Some spec) operation_id arguments)
  = [req] ->
  c req = Ok resp ->
  (200 <= status_code resp <= 299)%Z ->
  snd (call_api_operation rt (Some c) (Some spec) operation_id arguments)
  = Ok (match json_payload resp with
        | Some decoded => decoded
        | None => JStr (text resp)
        end).
Proof.
  intros H Hc Hs.
  destruct spec as [| kv spec]; [discriminate |].
  rewrite call_api_operation_resolve in H |- * by discriminate.
  destruct (Spec.resolve (kv :: spec) operation_id)
    as [[[[path m] operation] |] | e]; try discriminate.
  apply invoke_request in H as (_ & _ & ->).
  rewrite Hc. unfold Spec.normalise, Spec.success, Spec.payload.
  replace ((200 <=? status_code resp)%Z && (status_code resp <=? 299)%Z)
    with true; [reflexivity |].
  symmetry. apply andb_true_iff. split; apply Z.leb_le; lia.
Qed.

(** C10. For a non-empty document without a [paths] key,
    [call_api_operation] raises [KeyError('paths')] for every identifier,
    which is neither the not-initialized nor the operation-not-found
    error, where the translator returns no tool; and on the empty
    document it reports the not-initialized error although a document
    is loaded. *)
Theorem call_api_operation_without_paths (c : client float)
        (spec : list (string * json)) (operation_id : string)
        (arguments : list (string * json)) :
  spec <> [] ->
  dict_get "paths" spec = None ->
  call_api_operation rt (Some c) (Some spec) operation_id arguments
  = ([], Raise (KeyError "paths")) /\
  KeyError "paths" <> not_initialized /\
  KeyError "paths" <> operation_not_found operation_id /\
  create_tools_from_openapi rt (Some spec) = Ok [] /\
  call_api_operation rt (Some c) (Some []) operation_id arguments
  = ([], Raise not_initialized).
Proof.
  intros Hne Hp. repeat split; try discriminate.
  - rewrite call_api_operation_resolve by exact Hne.
    unfold Spec.resolve. cbn [py_getitem]. now rewrite Hp.
  - now apply no_paths_key_no_tool.
Qed.

(** C7. [call_tool] never lets an exception through: it always returns
    one text payload, and when [call_api_operation] raises an error the
    text is ["Error: "] followed by the message of the error. *)
Theorem call_tool_never_raises (api_client : option (client float))
        (spec : option (list (string * json))) (tool_name : string)
        (arguments : option (list (string * json))) :
  (exists content,
     snd (call_tool rt api_client spec tool_name arguments) = Ok [content] /\
     TextContent.type content = "text") /\
  (forall e,
     snd (call_api_operation rt api_client spec tool_name
                             (or_empty rt arguments)) = Raise e ->
     snd (call_tool rt api_client spec tool_name arguments)
     = Ok [ {| TextContent.type := "text";
               TextContent.text := "Error: " ++ exn_str rt e |} ]) /\
  fst (call_tool rt api_client spec tool_name arguments)
  = fst (call_api_operation rt api_client spec tool_name
                            (or_empty rt arguments)).
Proof.
  unfold call_tool.
  destruct (call_api_operation rt api_client spec tool_name
                               (or_empty rt arguments)) as [t [v | e]];
    cbn [io_bind io_ret try_except any_exception fst snd].
  - split; [eauto | split; [discriminate | now rewrite !app_nil_r]].
  - split; [eauto | split; [| now rewrite app_nil_r]].
    intros e' E. now injection E as <-.
Qed.

End InvokerFacts.

(** ** Parameters located elsewhere than in the path or the query *)

Section LocationFacts.

Context {float : Type} (rt : runtime float).

Local Abbreviation json := (json float).

(** C2 (amended). A declared parameter whose location is neither [path]
    nor [query] is listed as a property of the tool's input schema like
    every other declared parameter, the translator not reading the
    location; the invoker's argument partition does not use it: a round
    on it leaves the path and the query parameters unchanged, and the
    partition is the one of the declaration without it. *)
Theorem other_location_parameter (spec : list (string * json))
        (tools : list (Tool float)) (paths : list (string * json))
        (path : string) (item : list (string * json)) (m : string)
        (op : list (string * json)) (params : list json)
        (p : list (string * json)) (n : string) :
  create_tools_from_openapi rt (Some spec) = Ok tools ->
  dict_get "paths" spec = Some (JObj paths) ->
  In (path, JObj item) paths -> In m METHODS ->
  dict_get m item = Some (JObj op) ->
  dict_get "parameters" op = Some (JArr params) ->
  In (JObj p) params ->
  dict_get "name" p = Some (JStr n) ->
  dict_get "in" p <> Some (JStr "path") ->
  dict_get "in" p <> Some (JStr "query") ->
  (exists t,
     In t tools /\ operation_tool rt m path (JObj op) = Ok t /\
     built_get rt (JStr n) (properties (inputSchema t)) <> None) /\
  (forall arguments st,
     partition_argument rt arguments st (JObj p) = Ok st) /\
  (forall arguments before after st,
     for_each (partition_argument rt arguments)
              (before ++ JObj p :: after)%list st
     = for_each (partition_argument rt arguments) (before ++ after)%list st).
Proof.
  intros H Hp Hin Hm Hd Hps Hparam Hn Hpath Hquery.
  assert (Hstep : forall arguments st,
             partition_argument rt arguments st (JObj p) = Ok st)
    by (intros; now apply partition_argument_other with (n := n)).
  split; [| split; [exact Hstep |]].
  - destruct (create_tools_lists rt _ _ _ _ _ _ _ H Hp Hin Hm Hd)
      as (t & Ht & Hop).
    exists t. repeat split; try assumption.
    eapply declared_parameter_listed; eauto.
  - intros arguments before after st. rewrite !for_each_app.
    destruct (for_each (partition_argument rt arguments) before st)
      as [st' | e]; [| reflexivity].
    cbn [bind for_each]. now rewrite Hstep.
Qed.

End LocationFacts.

(** ** The bridge on the sample documents *)

(** C2, the witness: the header parameter [X-Token] of
    [GET /beacons/{id}]. *)
Lemma other_location_parameter_witness :
  exists tools,
    create_tools_from_openapi Sample.rt (Some Sample.beacons) = Ok tools /\
    (exists t,
       In t tools /\ name t = "get__beacons_{id}" /\
       built_get Sample.rt (JStr "X-Token") (properties (inputSchema t))
       <> None) /\
    partition_argument Sample.rt [("X-Token", JStr "s3cr3t")]
                       ("/beacons/{id}", []) Sample.token_parameter
    = Ok ("/beacons/{id}", []).
Proof.
  destruct (create_tools_from_openapi Sample.rt (Some Sample.beacons))
    as [tools | e] eqn:E; [| vm_compute in E; discriminate].
  exists tools. split; [reflexivity |].
  destruct (other_location_parameter Sample.rt Sample.beacons tools _
              "/beacons/{id}" _ "get" _ _
              [("name", JStr "X-Token"); ("in", JStr "header")] "X-Token"
              E eq_refl (or_introl eq_refl) (or_introl eq_refl) eq_refl
              eq_refl (or_intror (or_introl eq_refl)) eq_refl
              ltac:(discriminate) ltac:(discriminate))
    as ((t & Ht & Hop & Hprop) & Hstep & _).
  split; [| apply Hstep].
  exists t. split; [exact Ht |]. split; [| exact Hprop].
  destruct (operation_tool_name Sample.rt _ _ _ _ Hop) as [Hid | [_ Hid]];
    [discriminate | exact Hid].
Defined.

(** C2 as stated fails: the header parameter [X-Token] is a property of
    the input schema of [GET /beacons/{id}]. *)
Lemma header_parameter_is_listed :
  match create_tools_from_openapi Sample.rt (Some Sample.beacons) with
  | Ok (t :: _) =>
      built_get Sample.rt (JStr "X-Token") (properties (inputSchema t))
      = Some {| prop_type := JStr "string";
                prop_description := JStr EmptyString |}
  | _ => False
  end.
Proof.
  vm_compute. reflexivity.
Qed.

(** C3, the witness: no operation of [Sample.beacons] declares the
    fallback name of [GET /beacons/{id}]. *)
Lemma fallback_name_resolution_witness :
  call_api_operation Sample.rt (Some Sample.plain_client)
                     (Some Sample.beacons) "get__beacons_{id}"
                     [("id", JStr "42")]
  = ([], Raise (operation_not_found "get__beacons_{id}")).
Proof.
  apply (proj1 (fallback_name_resolution Sample.rt Sample.plain_client
                  Sample.beacons _ "/beacons/{id}" _ "get" _
                  [("id", JStr "42")] eq_refl eq_refl
                  (or_introl eq_refl) (or_introl eq_refl) eq_refl eq_refl)).
  reflexivity.
Defined.

(** C3 as stated fails: in [Sample.shadowed] the tool listed for [GET /a],
    which has no identifier, is named [get__a]; calling that name
    requests [GET /b] and returns its reply instead of ending in the
    operation-not-found error. *)
Lemma shadowed_fallback_name_is_invoked :
  match create_tools_from_openapi Sample.rt (Some Sample.shadowed) with
  | Ok tools => map (@name Empty_set) tools = ["get__a"; "get__a"]
  | Raise _ => False
  end /\
  call_api_operation Sample.rt (Some Sample.plain_client)
                     (Some Sample.shadowed) "get__a" []
  = ([ {| req_verb := GET; req_path := "/b"; req_params := [];
          req_json := None |} ], Ok (JStr "done")).
Proof.
  split; vm_compute; reflexivity.
Qed.

(** C4, the witness: [killBeacon] at [/beacons/{id}/kill] called with
    [{id: "42"}] is requested at [/beacons/42/kill]. *)
Lemma call_api_operation_substitutes_path_witness :
  fst (call_api_operation Sample.rt (Some Sample.plain_client)
         (Some Sample.beacons) "killBeacon" [("id", JStr "42")])
  = [ {| req_verb := POST; req_path := "/beacons/42/kill"; req_params := [];
         req_json := Some JNull |} ] /\
  exists path m operation,
    Spec.resolve Sample.beacons "killBeacon" = Ok (Some (path, m, operation)) /\
    Spec.verb_of m = Some POST /\
    "/beacons/42/kill"
    = fold_left (Spec.substitute Sample.rt [("id", JStr "42")])
                (Spec.declared_parameters operation) path.
Proof.
  split; [reflexivity |].
  exact (proj1 (call_api_operation_substitutes_path Sample.rt
                  Sample.plain_client Sample.beacons "killBeacon"
                  [("id", JStr "42")]
                  {| req_verb := POST; req_path := "/beacons/42/kill";
                     req_params := []; req_json := Some JNull |}
                  eq_refl)).
Defined.

(** C6, at a document without [paths]: [call_api_operation] raises
    [KeyError('paths')] for every identifier, not the operation-not-found
    error, although the translator reads the same document as one with
    no tool. *)
Theorem unknown_operation_without_paths (c : client Empty_set)
        (operation_id : string) (arguments : list (string * Sample.value)) :
  call_api_operation Sample.rt (Some c) (Some Sample.no_paths) operation_id
                     arguments
  = ([], Raise (KeyError "paths")) /\
  KeyError "paths" <> operation_not_found operation_id /\
  create_tools_from_openapi Sample.rt (Some Sample.no_paths) = Ok [].
Proof.
  repeat split; discriminate.
Qed.

(** C7, the witness: on [Sample.no_paths] the [KeyError] of the invoker
    comes back as a text payload. *)
Lemma call_tool_never_raises_witness :
  snd (call_api_operation Sample.rt (Some Sample.plain_client)
         (Some Sample.no_paths) "getTarget" (or_empty Sample.rt None))
  = Raise (KeyError "paths") /\
  snd (call_tool Sample.rt (Some Sample.plain_client) (Some Sample.no_paths)
         "getTarget" None)
  = Ok [ {| TextContent.type := "text";
            TextContent.text := "Error: 'paths'" |} ].
Proof.
  split; [reflexivity |].
  exact (proj1 (proj2 (call_tool_never_raises Sample.rt
                         (Some Sample.plain_client) (Some Sample.no_paths)
                         "getTarget" None))
               (KeyError "paths") eq_refl).
Defined.

(** C8, the witness: the reply [200] with the text [done], which is no
    JSON, gives the text. *)
Lemma call_api_operation_success_witness :
  snd (call_api_operation Sample.rt (Some Sample.plain_client)
         (Some Sample.beacons) "killBeacon" [("id", JStr "42")])
  = Ok (JStr "done").
Proof.
  apply (call_api_operation_success Sample.rt Sample.plain_client
           Sample.beacons "killBeacon" [("id", JStr "42")]
           {| req_verb := POST; req_path := "/beacons/42/kill";
              req_params := []; req_json := Some JNull |}
           {| status_code := 200; text := "done"; json_payload := None |}
           eq_refl eq_refl).
  simpl. lia.
Defined.

(** C9, the witness: [Sample.no_paths]. *)
Lemma create_tools_without_paths_witness :
  dict_get "paths" Sample.no_paths = None /\
  create_tools_from_openapi Sample.rt (Some Sample.no_paths) = Ok [].
Proof.
  split; [reflexivity |].
  apply (create_tools_without_paths Sample.rt Sample.no_paths).
  left. reflexivity.
Defined.

(** C10, the witness: [Sample.no_paths]. *)
Lemma call_api_operation_without_paths_witness :
  Sample.no_paths <> [] /\
  dict_get "paths" Sample.no_paths = None /\
  call_api_operation Sample.rt (Some Sample.plain_client)
                     (Some Sample.no_paths) "getTarget" []
  = ([], Raise (KeyError "paths")).
Proof.
  split; [discriminate |]. split; [reflexivity |].
  apply (call_api_operation_without_paths Sample.rt Sample.plain_client
           Sample.no_paths "getTarget" []); [discriminate | reflexivity].
Defined.

(** * Further properties of the translator *)

Section TranslatorOrder.

Context {float : Type} (rt : runtime float).

Local Abbreviation json := (json float).
Local Abbreviation props := (list (json * property float)).

Lemma inner_loop_order (path : string) (item : json) (ms : list string) :
  forall tools tools',
    for_each (method_tools rt path item) ms tools = Ok tools' ->
    exists new,
      tools' = (tools ++ new)%list /\
      Forall2 (Spec.is_tool_of rt) (Spec.item_operations path item ms) new.
Proof.
  induction ms as [| m ms IH]; intros tools tools' H; simpl in H.
  - injection H as <-. exists []. split; [now rewrite app_nil_r | constructor].
  - bind_inv H. destruct (IH _ _ H) as (new & -> & Hnew). clear IH H.
    apply method_tools_Ok in Ha as [[Hc ->] | (op & t & Hc & Hg & Ht & ->)].
    + exists new. split; [reflexivity |].
      cbn [Spec.item_operations flat_map].
      destruct item as [| | | | | | d]; try exact Hnew.
      cbn [py_contains] in Hc. injection Hc as Hc. unfold dict_mem in Hc.
      destruct (dict_get m d); [discriminate | exact Hnew].
    + exists (t :: new). split; [now rewrite <- app_assoc |].
      cbn [Spec.item_operations flat_map].
      destruct item as [| | | | | | d]; try discriminate.
      cbn [py_getitem] in Hg.
      destruct (dict_get m d) as [op' |]; [| discriminate].
      injection Hg as ->. constructor; [exact Ht | exact Hnew].
Qed.

Lemma outer_loop_order (items : list (string * json)) :
  forall tools tools',
    for_each (fun tools '(path, path_item) => path_tools rt path path_item tools)
             items tools = Ok tools' ->
    exists new,
      tools' = (tools ++ new)%list /\
      Forall2 (Spec.is_tool_of rt) (Spec.operations items) new.
Proof.
  induction items as [| [path item] items IH]; intros tools tools' H;
    simpl in H.
  - injection H as <-. exists []. split; [now rewrite app_nil_r | constructor].
  - bind_inv H. destruct (IH _ _ H) as (new & -> & Hnew).
    apply inner_loop_order in Ha as (new0 & -> & Hnew0).
    exists (new0 ++ new)%list. split; [now rewrite app_assoc |].
    cbn [Spec.operations flat_map fst snd]. now apply Forall2_app.
Qed.

Lemma tools_of_operations (spec paths : list (string * json))
      (tools : list (Tool float)) :
  create_tools_from_openapi rt (Some spec) = Ok tools ->
  dict_get "paths" spec = Some (JObj paths) ->
  Forall2 (Spec.is_tool_of rt) (Spec.operations paths) tools.
Proof.
  intros H Hp. unfold create_tools_from_openapi, dict_mem in H.
  rewrite Hp in H. destruct spec as [| kv spec]; [discriminate |].
  cbn [truthy negb orb] in H.
  rewrite (py_getitem_dict _ _ _ Hp) in H. cbn [bind py_items] in H.
  apply outer_loop_order in H as (new & -> & Hnew). exact Hnew.
Qed.

(** X1. The tool list is the list of the operations of the document,
    paths in document order and, under each path, the methods in the
    order get, post, put, delete, patch: one tool for each operation,
    in that order, and no other tool. *)
Theorem create_tools_order (spec paths : list (string * json))
        (tools : list (Tool float)) :
  create_tools_from_openapi rt (Some spec) = Ok tools ->
  dict_get "paths" spec = Some (JObj paths) ->
  Forall2 (Spec.is_tool_of rt) (Spec.operations paths) tools /\
  length tools = length (Spec.operations paths).
Proof.
  intros H Hp. pose proof (tools_of_operations _ _ _ H Hp) as Hall.
  split; [exact Hall |]. symmetry. eapply Forall2_length. exact Hall.
Qed.

(** *** The required list and the properties of the declared parameters *)

Lemma add_parameter_step (ps : props) (req : list json) (param : json)
      (ps' : props) (req' : list json) :
  add_parameter rt (ps, req) param = Ok (ps', req') ->
  exists p,
    param = JObj p /\
    ps' = built_set rt (Spec.parameter_name param)
                    (Spec.declared_property p) ps /\
    req' = (req ++ (if Spec.flagged_required rt param
                    then [Spec.parameter_name param] else []))%list.
Proof.
  unfold add_parameter. intros H.
  bind_inv H. destruct param as [| | | | | | p]; try discriminate.
  bind_inv H. bind_inv H. bind_inv H. bind_inv H. bind_inv H.
  injection H as <- <-.
  unfold py_setitem in Ha3. destruct (hashable a); [| discriminate].
  injection Ha3 as <-.
  exists p. cbn [Spec.parameter_name Spec.flagged_required].
  unfold Spec.declared_property.
  cbn [py_get] in Ha, Ha0, Ha2, Ha4.
  destruct (dict_get "name" p); injection Ha as <-;
    destruct (dict_get "description" p); injection Ha2 as <-;
    destruct (dict_get "required" p); injection Ha4 as <-;
    (destruct (dict_get "schema" p) as [sch |]; injection Ha0 as <-;
     [destruct sch; try discriminate; cbn [py_get] in Ha1;
      destruct (dict_get "type" d); injection Ha1 as <- |
      cbn in Ha1; injection Ha1 as <-]);
    (split; [reflexivity |]; split; [reflexivity |]);
    cbn [truthy]; try (destruct (truthy rt _)); try reflexivity;
    now rewrite app_nil_r.
Qed.

Lemma add_parameter_loop_required (params : list json) :
  forall (ps : props) (req : list json) (ps' : props) (req' : list json),
    for_each (add_parameter rt) params (ps, req) = Ok (ps', req') ->
    req' = (req ++ map Spec.parameter_name
                       (filter (Spec.flagged_required rt) params))%list.
Proof.
  induction params as [| param params IH]; intros ps req ps' req' H;
    simpl in H.
  - injection H as _ <-. simpl. now rewrite app_nil_r.
  - bind_inv H. destruct a as [ps1 req1].
    apply add_parameter_step in Ha as (p & -> & _ & ->).
    apply IH in H as ->. cbn [filter].
    destruct (Spec.flagged_required rt (JObj p)); cbn [map];
      [now rewrite <- app_assoc | now rewrite app_nil_r].
Qed.

(** The request-body step leaves the properties or writes the one
    property [requestBody], and appends only [requestBody] to the
    required list. *)
Lemma add_request_body_Ok (operation : json) (ps : props) (req : list json)
      (ps' : props) (req' : list json) :
  add_request_body rt operation (ps, req) = Ok (ps', req') ->
  (ps' = ps \/ ps' = built_set rt (JStr "requestBody") body_property ps) /\
  exists n, req' = (req ++ repeat (JStr "requestBody") n)%list.
Proof.
  unfold add_request_body. intros H.
  assert (Hnot : (ps, req) = (ps', req') ->
                 (ps' = ps \/
                  ps' = built_set rt (JStr "requestBody") body_property ps) /\
                 exists n, req' = (req ++ repeat (JStr "requestBody") n)%list).
  { intros E. injection E as <- <-. split; [now left |].
    exists 0. simpl. now rewrite app_nil_r. }
  bind_inv H. destruct a; [| injection H as H; apply Hnot; congruence].
  bind_inv H. bind_inv H.
  destruct a0; [| injection H as H; apply Hnot; congruence].
  bind_inv H. bind_inv H.
  destruct a as [| | | | | | rb]; try discriminate.
  apply add_content_loop in H as [-> ->]. split.
  - destruct (Nat.eqb _ 0); auto.
  - destruct (Spec.body_required rt rb); [eauto |].
    exists 0. reflexivity.
Qed.

(** X2. The required list of a tool names the declared parameters whose
    [required] flag is set, in the order of their declaration and once
    per declaration, followed by nothing but [requestBody]; without a
    request body it is exactly those names. *)
Theorem required_follows_declaration (m path : string)
        (op : list (string * json)) (params : list json) (t : Tool float) :
  operation_tool rt m path (JObj op) = Ok t ->
  dict_get "parameters" op = Some (JArr params) ->
  (exists n,
     Spec.required_list t
     = (map Spec.parameter_name (filter (Spec.flagged_required rt) params)
        ++ repeat (JStr "requestBody") n)%list) /\
  (dict_get "requestBody" op = None ->
   Spec.required_list t
   = map Spec.parameter_name (filter (Spec.flagged_required rt) params)).
Proof.
  intros H Hps.
  apply operation_tool_Ok in H as (ps & req & ps' & req' & Hp & Hb & _ & <-).
  unfold add_parameters in Hp.
  rewrite (py_contains_dict _ _ _ Hps), (py_getitem_dict _ _ _ Hps) in Hp.
  cbn [bind py_iter] in Hp.
  apply add_parameter_loop_required in Hp. cbn [app] in Hp. subst req.
  split.
  - now apply add_request_body_Ok in Hb as [_ Hn].
  - intros Hnone. unfold add_request_body in Hb.
    cbn [py_contains] in Hb. unfold dict_mem in Hb. rewrite Hnone in Hb.
    cbn [bind] in Hb. now injection Hb as _ <-.
Qed.

Lemma key_eqb_str (k : json) (n : string) :
  key_eqb rt k (JStr n) = true -> k = JStr n.
Proof.
  destruct k; simpl; try discriminate.
  intros H. apply String.eqb_eq in H. now subst.
Qed.

Lemma str_key_eqb (k : json) (n : string) :
  key_eqb rt (JStr n) k = true -> k = JStr n.
Proof.
  destruct k; simpl; try discriminate.
  intros H. apply String.eqb_eq in H. now subst.
Qed.

(** Writing under another key leaves what is under a string key. *)
Lemma built_get_set_other {V} (n : string) (k : json) (v : V)
      (d : list (json * V)) :
  k <> JStr n ->
  built_get rt (JStr n) (built_set rt k v d) = built_get rt (JStr n) d.
Proof.
  intros Hk. induction d as [| [k1 v1] d IH]; simpl.
  - destruct (key_eqb rt k (JStr n)) eqn:E; [| reflexivity].
    apply key_eqb_str in E. contradiction.
  - destruct (key_eqb rt k1 k) eqn:E1; simpl.
    + destruct (key_eqb rt k1 (JStr n)) eqn:E2; [| reflexivity].
      apply key_eqb_str in E2. subst k1.
      apply str_key_eqb in E1. contradiction.
    + destruct (key_eqb rt k1 (JStr n)); [reflexivity | exact IH].
Qed.

Lemma add_parameter_loop_last (n : string) (params : list json) :
  forall (ps : props) (req : list json) (ps' : props) (req' : list json),
    for_each (add_parameter rt) params (ps, req) = Ok (ps', req') ->
    (forall q, In q params -> Spec.parameter_name q <> JStr n) ->
    built_get rt (JStr n) ps' = built_get rt (JStr n) ps.
Proof.
  induction params as [| param params IH]; intros ps req ps' req' H Hn;
    simpl in H.
  - now injection H as <- _.
  - bind_inv H. destruct a as [ps1 req1].
    apply add_parameter_step in Ha as (p & -> & -> & _).
    rewrite (IH _ _ _ _ H) by (intros q Hq; apply Hn; now right).
    apply built_get_set_other. apply Hn. now left.
Qed.

(** X3. A declared parameter named [n], with no later declaration of
    that name and [n] other than [requestBody], is listed under [n] with
    the type of its schema, [string] when the schema or its type is
    missing, and with its description, empty when missing. *)
Theorem property_of_declared_parameter (m path : string)
        (op : list (string * json)) (t : Tool float)
        (before after : list json) (p : list (string * json)) (n : string) :
  operation_tool rt m path (JObj op) = Ok t ->
  dict_get "parameters" op = Some (JArr (before ++ JObj p :: after)%list) ->
  dict_get "name" p = Some (JStr n) ->
  (forall q, In q after -> Spec.parameter_name q <> JStr n) ->
  n <> "requestBody" ->
  built_get rt (JStr n) (properties (inputSchema t))
  = Some (Spec.declared_property p).
Proof.
  intros H Hps Hname Hafter Hn.
  apply operation_tool_Ok in H as (ps & req & ps' & req' & Hp & Hb & <- & _).
  unfold add_parameters in Hp.
  rewrite (py_contains_dict _ _ _ Hps), (py_getitem_dict _ _ _ Hps) in Hp.
  cbn [bind py_iter] in Hp.
  rewrite for_each_app in Hp. bind_inv Hp. destruct a as [ps1 req1].
  cbn [for_each] in Hp. bind_inv Hp. destruct a as [ps2 req2].
  apply add_parameter_step in Ha0 as (p0 & E & -> & _).
  injection E as <-.
  cbn [Spec.parameter_name] in Hp. rewrite Hname in Hp.
  apply add_parameter_loop_last with (n := n) in Hp; [| exact Hafter].
  rewrite built_get_set_same in Hp.
  apply add_request_body_Ok in Hb as [[-> | ->] _]; [exact Hp |].
  rewrite built_get_set_other by congruence. exact Hp.
Qed.

End TranslatorOrder.

(** * Further properties of the invoker *)

Section InvokerMore.

Context {float : Type} (rt : runtime float).

Local Abbreviation json := (json float).
Local Abbreviation query := (list (json * json)).

Lemma declared_intro (paths : list (string * json)) (path : string)
      (item : list (string * json)) (m : string) (op : list (string * json))
      (s : string) :
  In (path, JObj item) paths -> In m METHODS ->
  dict_get m item = Some (JObj op) ->
  dict_get "operationId" op = Some (JStr s) ->
  Spec.declared s paths = true.
Proof.
  intros Hin Hm Hd Hid. unfold Spec.declared.
  apply existsb_exists. exists (path, JObj item). split; [exact Hin |].
  cbn [snd]. unfold Spec.item_declares. apply existsb_exists.
  exists m. split; [exact Hm |].
  rewrite Hd. cbn [Spec.declares]. rewrite Hid. apply String.eqb_refl.
Qed.

Lemma resolve_methods_app (operation_id path : string) (item : json)
      (ms1 ms2 : list string) :
  Spec.resolve_methods operation_id path item (ms1 ++ ms2)
  = bind (Spec.resolve_methods operation_id path item ms1)
         (fun r => match r with
                   | Some found => Ok (Some found)
                   | None => Spec.resolve_methods operation_id path item ms2
                   end).
Proof.
  induction ms1 as [| m ms1 IH]; [reflexivity |].
  cbn [app Spec.resolve_methods].
  destruct (py_contains m item) as [[|] | e]; cbn [bind];
    [| exact IH | reflexivity].
  destruct (py_getitem item m) as [operation | e]; cbn [bind];
    [| reflexivity].
  destruct (py_get operation "operationId" JNull) as [found | e]; cbn [bind];
    [| reflexivity].
  destruct (eq_str found operation_id); [reflexivity | exact IH].
Qed.

Lemma resolve_paths_app (operation_id : string)
      (items1 items2 : list (string * json)) :
  Spec.resolve_paths operation_id (items1 ++ items2)
  = bind (Spec.resolve_paths operation_id items1)
         (fun r => match r with
                   | Some found => Ok (Some found)
                   | None => Spec.resolve_paths operation_id items2
                   end).
Proof.
  induction items1 as [| [path item] items1 IH]; [reflexivity |].
  cbn [app Spec.resolve_paths].
  destruct (Spec.resolve_methods operation_id path item METHODS)
    as [[found |] | e]; cbn [bind]; [reflexivity | exact IH | reflexivity].
Qed.

(** X4. With distinct identifiers, calling the name of the tool listed
    for an operation that has an identifier invokes that operation: the
    translator lists a tool of that name and the invoker resolves the
    name back to the operation it came from. *)
Theorem listed_tool_invokes_its_operation (c : client float)
        (spec paths : list (string * json)) (tools : list (Tool float))
        (path : string) (item : list (string * json)) (m : string)
        (op : list (string * json)) (s : string)
        (arguments : list (string * json)) :
  create_tools_from_openapi rt (Some spec) = Ok tools ->
  dict_get "paths" spec = Some (JObj paths) ->
  Spec.wf_paths paths = true ->
  In (path, JObj item) paths -> In m METHODS ->
  dict_get m item = Some (JObj op) ->
  dict_get "operationId" op = Some (JStr s) ->
  (forall path' item' m' op',
     In (path', JObj item') paths -> In m' METHODS ->
     dict_get m' item' = Some (JObj op') ->
     dict_get "operationId" op' = Some (JStr s) ->
     path' = path /\ m' = m /\ op' = op) ->
  (exists t, In t tools /\ name t = s /\
             operation_tool rt m path (JObj op) = Ok t) /\
  call_api_operation rt (Some c) (Some spec) s arguments
  = invoke rt c m path (JObj op) arguments.
Proof.
  intros H Hp Hwf Hin Hm Hd Hid Huniq. split.
  - destruct (create_tools_lists rt _ _ _ _ _ _ _ H Hp Hin Hm Hd)
      as (t & Ht & Hop).
    exists t. repeat split; try assumption.
    destruct (operation_tool_name rt _ _ _ _ Hop) as [E | [E _]]; congruence.
  - rewrite call_api_operation_resolve by (destruct spec; discriminate).
    unfold Spec.resolve. cbn [py_getitem]. rewrite Hp. cbn [bind py_items].
    destruct (resolve_paths_wf s paths Hwf) as [_ Hy].
    destruct (Hy (declared_intro _ _ _ _ _ _ Hin Hm Hd Hid))
      as (p' & m' & o' & E).
    rewrite E.
    apply resolve_paths_found in E as (item' & o & Hin' & Hm' & Hg & Ho & Ho').
    injection Ho as <-.
    destruct item' as [| | | | | | d']; try discriminate.
    cbn [py_getitem] in Hg.
    destruct (dict_get m' d') as [x |] eqn:Ed; [| discriminate].
    injection Hg as ->.
    destruct (Huniq _ _ _ _ Hin' Hm' Ed Ho') as (-> & -> & ->). reflexivity.
Qed.

(** X5. The first match wins: when no operation of the earlier paths,
    and none under an earlier method of the same path, declares the
    identifier, the call invokes this operation, whatever follows it in
    the document, a second operation of the same identifier included. *)
Theorem first_match_wins (c : client float) (spec : list (string * json))
        (before after : list (string * json)) (path : string)
        (item : list (string * json)) (ms1 ms2 : list string) (m : string)
        (op : list (string * json)) (operation_id : string)
        (arguments : list (string * json)) :
  dict_get "paths" spec
  = Some (JObj (before ++ (path, JObj item) :: after)%list) ->
  Spec.wf_paths before = true ->
  Spec.declared operation_id before = false ->
  Spec.wf_item (JObj item) = true ->
  METHODS = (ms1 ++ m :: ms2)%list ->
  Spec.item_declares operation_id (JObj item) ms1 = false ->
  dict_get m item = Some (JObj op) ->
  dict_get "operationId" op = Some (JStr operation_id) ->
  call_api_operation rt (Some c) (Some spec) operation_id arguments
  = invoke rt c m path (JObj op) arguments.
Proof.
  intros Hp Hwf Hdecl Hitem HM Hms1 Hd Hid.
  rewrite call_api_operation_resolve by (destruct spec; discriminate).
  unfold Spec.resolve. cbn [py_getitem]. rewrite Hp. cbn [bind py_items].
  rewrite resolve_paths_app.
  destruct (resolve_paths_wf operation_id before Hwf) as [Hn _].
  rewrite (Hn Hdecl). cbn [bind Spec.resolve_paths].
  rewrite HM, resolve_methods_app.
  destruct (resolve_methods_wf operation_id path item ms1) as [Hn1 _].
  { intros m' Hm'. apply (wf_item_methods item Hitem).
    rewrite HM. apply in_or_app. now left. }
  rewrite (Hn1 Hms1). cbn [bind Spec.resolve_methods py_contains].
  unfold dict_mem. rewrite Hd. cbn [bind py_getitem]. rewrite Hd.
  cbn [bind py_get]. rewrite Hid. cbn [bind eq_str].
  now rewrite String.eqb_refl.
Qed.

(** *** The request *)

Lemma verb_of_METHODS (m : string) :
  In m METHODS -> exists v, Spec.verb_of m = Some v.
Proof.
  intros [<- | [<- | [<- | [<- | [<- | []]]]]]; eexists; reflexivity.
Qed.

Lemma invoke_shape (c : client float) (m path : string) (operation : json)
      (arguments : list (string * json)) (req : request float) :
  fst (invoke rt c m path operation arguments) = [req] ->
  exists ap q v,
    partition_arguments rt path operation arguments = Ok (ap, q) /\
    Spec.verb_of m = Some v /\
    req = Spec.request_of v ap q (Spec.body_argument arguments) /\
    snd (invoke rt c m path operation arguments) = Spec.normalise rt (c req).
Proof.
  rewrite invoke_spec.
  destruct (partition_arguments rt path operation arguments)
    as [[ap q] | e] eqn:E; [| discriminate].
  destruct (Spec.verb_of m) as [v |] eqn:Ev; [| discriminate].
  cbn [fst snd]. intros H. injection H as <-. eauto 8.
Qed.

(** What a call that issued a request resolved to. *)
Lemma call_shape (c : client float) (spec : list (string * json))
      (operation_id : string) (arguments : list (string * json))
      (req : request float) :
  fst (call_api_operation rt (Some c) (Some spec) operation_id arguments)
  = [req] ->
  exists path m operation,
    Spec.resolve spec operation_id = Ok (Some (path, m, operation)) /\
    call_api_operation rt (Some c) (Some spec) operation_id arguments
    = invoke rt c m path operation arguments.
Proof.
  intros H. destruct spec as [| kv spec]; [discriminate |].
  rewrite call_api_operation_resolve in H |- * by discriminate.
  destruct (Spec.resolve (kv :: spec) operation_id)
    as [[[[path m] operation] |] | e]; try discriminate.
  eauto.
Qed.

(** X6. One call issues at most one HTTP request, whatever the document,
    the name and the arguments, with or without a client. *)
Theorem at_most_one_request (api_client : option (client float))
        (spec : option (list (string * json))) (tool_name : string)
        (arguments : option (list (string * json))) :
  (length (fst (call_api_operation rt api_client spec tool_name
                                   (or_empty rt arguments))) <= 1)%nat /\
  (length (fst (call_tool rt api_client spec tool_name arguments)) <= 1)%nat.
Proof.
  assert (H : (length (fst (call_api_operation rt api_client spec tool_name
                              (or_empty rt arguments))) <= 1)%nat).
  { destruct api_client as [c |]; [| simpl; lia].
    destruct spec as [[| kv spec] |]; try (simpl; lia).
    rewrite call_api_operation_resolve by discriminate.
    destruct (Spec.resolve (kv :: spec) tool_name)
      as [[[[path m] operation] |] | e]; try (simpl; lia).
    rewrite invoke_spec.
    destruct (partition_arguments rt path operation (or_empty rt arguments))
      as [[ap q] | e]; [| simpl; lia].
    destruct (Spec.verb_of m); simpl; lia. }
  split; [exact H |].
  unfold call_tool.
  destruct (call_api_operation rt api_client spec tool_name
                               (or_empty rt arguments)) as [t [v | e]];
    cbn [io_bind io_ret try_except any_exception fst] in *;
    rewrite ?app_nil_r; exact H.
Qed.

(** X7. A failed remote call is wrapped: when the client raises an
    [httpx.HTTPError], or answers with a status outside 200 to 299, the
    call raises [Exception("API call failed: ...")] with the text of the
    underlying error; any other exception of the client passes through
    unwrapped. *)
Theorem remote_failure_is_wrapped (c : client float)
        (spec : list (string * json)) (operation_id : string)
        (arguments : list (string * json)) (req : request float) :
  fst (call_api_operation rt (Some c) (Some spec) operation_id arguments)
  = [req] ->
  (forall msg,
     c req = Raise (HTTPError msg) ->
     snd (call_api_operation rt (Some c) (Some spec) operation_id arguments)
     = Raise (Exception ("API call failed: " ++ msg))) /\
  (forall resp,
     c req = Ok resp ->
     (status_code resp < 200 \/ 299 < status_code resp)%Z ->
     snd (call_api_operation rt (Some c) (Some spec) operation_id arguments)
     = Raise (Exception ("API call failed: " ++ status_message rt resp))) /\
  (forall e,
     c req = Raise e -> is_HTTPError e = false ->
     snd (call_api_operation rt (Some c) (Some spec) operation_id arguments)
     = Raise e).
Proof.
  intros H.
  destruct (call_shape _ _ _ _ _ H) as (path & m & operation & _ & E).
  rewrite E in H |- *.
  apply invoke_shape in H as (ap & q & v & _ & _ & _ & ->).
  repeat split.
  - intros msg ->. reflexivity.
  - intros resp -> Hs. unfold Spec.normalise, Spec.success.
    replace ((200 <=? status_code resp)%Z && (status_code resp <=? 299)%Z)
      with false; [reflexivity |].
    symmetry. apply andb_false_iff.
    destruct Hs; [left; apply Z.leb_gt | right; apply Z.leb_gt]; lia.
  - intros e -> He. destruct e; try reflexivity. discriminate.
Qed.

(** X9. The [requestBody] argument is forwarded as the JSON body of a
    [post], [put] or [patch] request whether or not the operation
    declares a request body ([None] when the bag has none); a [get] or
    [delete] request carries no body even when the bag has one. *)
Theorem request_body_is_forwarded (c : client float)
        (spec : list (string * json)) (operation_id : string)
        (arguments : list (string * json)) (req : request float) :
  fst (call_api_operation rt (Some c) (Some spec) operation_id arguments)
  = [req] ->
  req_json req
  = match req_verb req with
    | POST | PUT | PATCH =>
        Some (match dict_get "requestBody" arguments with
              | Some body => body
              | None => JNull
              end)
    | GET | DELETE => None
    end.
Proof.
  intros H.
  destruct (call_shape _ _ _ _ _ H) as (path & m & operation & _ & E).
  rewrite E in H.
  apply invoke_shape in H as (ap & q & v & _ & _ & -> & _).
  now destruct v.
Qed.

End InvokerMore.

(** * The query parameters and the arguments that are not there *)

Section PartitionMore.

Context {float : Type} (rt : runtime float).

Local Abbreviation json := (json float).
Local Abbreviation query := (list (json * json)).

(** One round of the partition leaves the query parameters or writes the
    bag's value under the name of a declared [query] parameter. *)
Lemma partition_argument_query (arguments : list (string * json))
      (ap : string) (q : query) (param : json) (ap' : string) (q' : query) :
  partition_argument rt arguments (ap, q) param = Ok (ap', q') ->
  q' = q \/
  exists n p value,
    param = JObj p /\ dict_get "name" p = Some (JStr n) /\
    dict_get "in" p = Some (JStr "query") /\
    dict_get n arguments = Some value /\
    q' = built_set rt (JStr n) value q.
Proof.
  unfold partition_argument. intros H.
  bind_inv H. destruct param as [| | | | | | p]; try discriminate.
  bind_inv H. bind_inv H.
  destruct a1 as [value |]; [| injection H as _ <-; now left].
  destruct (eq_str a0 "path"); [injection H as _ <-; now left |].
  destruct (eq_str a0 "query") eqn:Eq; [| injection H as _ <-; now left].
  apply eq_str_true in Eq. subst a0.
  destruct a as [| | | | n | |]; cbn [arg_lookup] in Ha1; try discriminate.
  injection Ha1 as Hv.
  cbn [py_setitem hashable bind] in H. injection H as _ <-.
  right. exists n, p, value. repeat split; try assumption.
  - cbn [py_get] in Ha. destruct (dict_get "name" p); [| discriminate].
    now injection Ha as ->.
  - cbn [py_get] in Ha0. destruct (dict_get "in" p); [| discriminate].
    now injection Ha0 as ->.
Qed.

Lemma Forall_built_set (P : json * json -> Prop) (n : string) (v : json)
      (q : query) :
  Forall P q -> P (JStr n, v) -> Forall P (built_set rt (JStr n) v q).
Proof.
  intros Hq Hnew. induction Hq as [| [k x] q Hk Hq IH]; simpl.
  - constructor; [exact Hnew | constructor].
  - destruct (key_eqb rt k (JStr n)) eqn:E.
    + apply key_eqb_str in E. subst k. constructor; assumption.
    + constructor; assumption.
Qed.

Lemma partition_loop_query_sound (arguments : list (string * json))
      (declared : list json) (params : list json) :
  forall (ap : string) (q : query) (ap' : string) (q' : query),
    for_each (partition_argument rt arguments) params (ap, q) = Ok (ap', q') ->
    incl params declared ->
    Forall (Spec.is_query_argument arguments declared) q ->
    Forall (Spec.is_query_argument arguments declared) q'.
Proof.
  induction params as [| param params IH]; intros ap q ap' q' H Hincl Hq;
    simpl in H.
  - now injection H as _ <-.
  - bind_inv H. destruct a as [ap1 q1].
    apply (IH _ _ _ _ H); [intros x Hx; apply Hincl; now right |].
    apply partition_argument_query in Ha
      as [-> | (n & p & value & -> & Hn & Hloc & Hv & ->)]; [exact Hq |].
    apply Forall_built_set; [exact Hq |].
    exists n, p. cbn [fst snd]. repeat split; try assumption.
    apply Hincl. now left.
Qed.

Lemma partition_loop_query_complete (arguments : list (string * json))
      (p : list (string * json)) (n : string) (value : json)
      (params : list json) :
  dict_get "name" p = Some (JStr n) ->
  dict_get "in" p = Some (JStr "query") ->
  dict_get n arguments = Some value ->
  forall (ap : string) (q : query) (ap' : string) (q' : query),
    for_each (partition_argument rt arguments) params (ap, q) = Ok (ap', q') ->
    built_get rt (JStr n) q = Some value \/ In (JObj p) params ->
    built_get rt (JStr n) q' = Some value.
Proof.
  intros Hn Hloc Hv.
  induction params as [| param params IH]; intros ap q ap' q' H Hinv;
    simpl in H.
  - injection H as _ <-. destruct Hinv as [Hinv | []]. exact Hinv.
  - bind_inv H. destruct a as [ap1 q1].
    apply (IH _ _ _ _ H). clear IH H.
    destruct Hinv as [Hinv | [-> | Hin]]; [| | now right]; left.
    + apply partition_argument_query in Ha
        as [-> | (n' & p' & value' & _ & _ & _ & Hv' & ->)]; [exact Hinv |].
      destruct (String.eqb n' n) eqn:E.
      * apply String.eqb_eq in E. subst n'.
        rewrite Hv in Hv'. injection Hv' as <-. apply built_get_set_same.
      * apply String.eqb_neq in E.
        rewrite built_get_set_other by congruence. exact Hinv.
    + unfold partition_argument in Ha. cbn [py_get] in Ha.
      rewrite Hn, Hloc in Ha. cbn [bind arg_lookup] in Ha. rewrite Hv in Ha.
      cbn [bind eq_str py_setitem hashable] in Ha.
      change (String.eqb "query" "path") with false in Ha.
      change (String.eqb "query" "query") with true in Ha.
      cbn [bind] in Ha. injection Ha as _ <-. apply built_get_set_same.
Qed.

(** The partition of an operation whose [parameters] is a list. *)
Lemma partition_arguments_list (path : string) (operation : json)
      (arguments : list (string * json)) (ap : string) (q : query) :
  partition_arguments rt path operation arguments = Ok (ap, q) ->
  for_each (partition_argument rt arguments)
           (Spec.declared_parameters operation) (path, []) = Ok (ap, q).
Proof.
  unfold partition_arguments. intros H.
  bind_inv H. destruct a.
  - bind_inv H. bind_inv H.
    destruct operation as [| | | | | | o]; try discriminate.
    cbn [py_getitem] in Ha0. cbn [Spec.declared_parameters].
    destruct (dict_get "parameters" o) as [v |]; [| discriminate].
    injection Ha0 as <-.
    destruct v as [| | | | s | l | d]; try discriminate;
      cbn [py_iter] in Ha1; injection Ha1 as <-.
    + destruct s as [| ch s]; [exact H | discriminate].
    + exact H.
    + destruct d as [| [k x] d]; [exact H | discriminate].
  - destruct operation as [| | | | | | o]; try exact H.
    cbn [py_contains] in Ha. injection Ha as Ha. unfold dict_mem in Ha.
    cbn [Spec.declared_parameters].
    destruct (dict_get "parameters" o); [discriminate | exact H].
Qed.

(** X8. The query parameters of the request are the declared [query]
    parameters found in the argument bag, with the bag's values: every
    entry comes from such a parameter, and every such parameter has its
    entry.  An argument that no [query] parameter declares is never
    sent as a query parameter. *)
Theorem query_parameters_are_declared (c : client float)
        (spec : list (string * json)) (operation_id : string)
        (arguments : list (string * json)) (req : request float) :
  fst (call_api_operation rt (Some c) (Some spec) operation_id arguments)
  = [req] ->
  exists path m operation,
    Spec.resolve spec operation_id = Ok (Some (path, m, operation)) /\
    Forall (Spec.is_query_argument arguments
              (Spec.declared_parameters operation)) (req_params req) /\
    (forall p n value,
       In (JObj p) (Spec.declared_parameters operation) ->
       dict_get "name" p = Some (JStr n) ->
       dict_get "in" p = Some (JStr "query") ->
       dict_get n arguments = Some value ->
       built_get rt (JStr n) (req_params req) = Some value).
Proof.
  intros H.
  destruct (call_shape _ _ _ _ _ _ H) as (path & m & operation & Hres & E).
  rewrite E in H.
  apply invoke_shape in H as (ap & q & v & Hpart & _ & -> & _).
  apply partition_arguments_list in Hpart.
  exists path, m, operation. split; [exact Hres |]. cbn [req_params].
  split.
  - eapply partition_loop_query_sound; eauto using incl_refl.
  - intros p n value Hin Hn Hloc Hv.
    eapply partition_loop_query_complete; eauto.
Qed.

Lemma partition_loop_absent (arguments : list (string * json))
      (params : list json) (st : string * query) :
  Forall (fun param => exists p n,
            param = JObj p /\ dict_get "name" p = Some (JStr n) /\
            dict_get n arguments = None) params ->
  for_each (partition_argument rt arguments) params st = Ok st.
Proof.
  intros Hall. induction Hall as [| param params (p & n & -> & Hn & Hv) _ IH];
    [reflexivity |].
  cbn [for_each]. destruct st as [ap q].
  unfold partition_argument at 1. cbn [py_get]. rewrite Hn.
  destruct (dict_get "in" p); cbn [bind arg_lookup]; rewrite Hv;
    cbn [bind]; exact IH.
Qed.

(** X10. The [required] flag is not enforced at call time: when the
    argument bag has none of the declared parameters, required ones
    included, the call is still dispatched, to the path template as it
    is, placeholders left in, and without a query parameter. *)
Theorem missing_arguments_are_not_rejected (c : client float)
        (spec : list (string * json)) (operation_id : string)
        (arguments : list (string * json)) (path m : string)
        (op : list (string * json)) (params : list json) :
  Spec.resolve spec operation_id = Ok (Some (path, m, JObj op)) ->
  dict_get "parameters" op = Some (JArr params) ->
  Forall (fun param => exists p n,
            param = JObj p /\ dict_get "name" p = Some (JStr n) /\
            dict_get n arguments = None) params ->
  exists req,
    call_api_operation rt (Some c) (Some spec) operation_id arguments
    = ([req], Spec.normalise rt (c req)) /\
    req_path req = path /\ req_params req = [].
Proof.
  intros Hres Hps Hall.
  assert (Hne : spec <> []) by (intros ->; discriminate).
  rewrite call_api_operation_resolve by exact Hne. rewrite Hres.
  rewrite invoke_spec. unfold partition_arguments.
  rewrite (py_contains_dict _ _ _ Hps), (py_getitem_dict _ _ _ Hps).
  cbn [bind py_iter]. rewrite (partition_loop_absent _ _ _ Hall).
  assert (Hm : In m METHODS).
  { unfold Spec.resolve in Hres. bind_inv Hres. bind_inv Hres.
    now apply resolve_paths_found in Hres as (_ & _ & _ & Hm & _). }
  destruct (verb_of_METHODS m Hm) as [v ->].
  eexists. split; [reflexivity |]. split; reflexivity.
Qed.

(** X11. The text [call_tool] returns for a successful reply: a body
    that is no JSON comes back as it is; a decoded object or array goes
    through [json.dumps(..., indent=2)]; any other decoded value through
    [str], a JSON string giving its characters without quotes. *)
Theorem call_tool_renders_reply (c : client float)
        (spec : option (list (string * json))) (tool_name : string)
        (arguments : option (list (string * json))) (req : request float)
        (resp : response float) :
  fst (call_tool rt (Some c) spec tool_name arguments) = [req] ->
  c req = Ok resp ->
  (200 <= status_code resp <= 299)%Z ->
  snd (call_tool rt (Some c) spec tool_name arguments)
  = Ok [ {| TextContent.type := "text";
            TextContent.text :=
              match json_payload resp with
              | None => text resp
              | Some (JStr s) => s
              | Some (JObj d) => json_dumps rt (JObj d)
              | Some (JArr l) => json_dumps rt (JArr l)
              | Some v => py_repr rt v
              end |} ].
Proof.
  intros H Hc Hs. unfold call_tool in *.
  destruct spec as [spec |]; [| discriminate].
  destruct (call_api_operation rt (Some c) (Some spec) tool_name
                               (or_empty rt arguments))
    as [t r] eqn:E.
  assert (Ht : t = [req]).
  { destruct r; cbn [io_bind io_ret try_except any_exception fst] in H;
      now rewrite ?app_nil_r in H. }
  subst t.
  assert (Hfst : fst (call_api_operation rt (Some c) (Some spec) tool_name
                        (or_empty rt arguments)) = [req])
    by now rewrite E.
  destruct (call_shape _ _ _ _ _ _ Hfst) as (path & m & operation & _ & E').
  rewrite E' in Hfst.
  apply invoke_shape in Hfst as (ap & q & v & _ & _ & _ & Hsnd).
  rewrite <- E', E in Hsnd. cbn [snd] in Hsnd. subst r.
  rewrite Hc. unfold Spec.normalise, Spec.success, Spec.payload.
  replace ((200 <=? status_code resp)%Z && (status_code resp <=? 299)%Z)
    with true by (symmetry; apply andb_true_iff; split; apply Z.leb_le; lia).
  cbn [io_bind io_ret try_except snd].
  destruct (json_payload resp) as [[| | | | | |] |]; reflexivity.
Qed.

End PartitionMore.

(** * Startup *)

Section StartupFacts.

Context {float : Type} (rt : runtime float).

Local Abbreviation json := (json float).

Variable network : AsyncClient -> http_call float -> result (response float).

Variable cfg : settings.

Local Abbreviation login := (login_call (float := float) cfg).
Local Abbreviation api := (bearer_client rt cfg).

Lemma success_range (r : response float) :
  (200 <=? status_code r)%Z && (status_code r <=? 299)%Z = true ->
  (200 <= status_code r <= 299)%Z.
Proof.
  intros H. apply andb_true_iff in H as [H1 H2].
  apply Z.leb_le in H1. apply Z.leb_le in H2. lia.
Qed.

(** X12. [authenticate] returns a token only after one POST of the user
    name and the password to [BASE_URL/api/auth/login] was answered with
    a status from 200 to 299 and a JSON object whose [access_token] is
    truthy; the token returned is that value, and it is what
    [bearer_token] then holds. *)
Theorem authenticate_returns (g g' : globals float)
        (events : list (event float)) (token : json) :
  authenticate rt network cfg g = (events, g', Returned token) ->
  USERNAME cfg <> EmptyString /\ PASSWORD cfg <> EmptyString /\
  exists resp d,
    network (login_client cfg) login = Ok resp /\
    (200 <= status_code resp <= 299)%Z /\
    json_payload resp = Some (JObj d) /\
    dict_get "access_token" d = Some token /\
    truthy rt token = true /\
    sent events = [(login_client cfg, login)] /\
    g' = {| bearer_token := Some token; api_client := api_client g;
            openapi_spec := openapi_spec g |}.
Proof.
  unfold authenticate. intros H.
  destruct (String.eqb (USERNAME cfg) EmptyString) eqn:Eu;
    [discriminate |].
  destruct (String.eqb (PASSWORD cfg) EmptyString) eqn:Ep;
    [discriminate |].
  apply String.eqb_neq in Eu. apply String.eqb_neq in Ep.
  split; [exact Eu |]. split; [exact Ep |].
  cbn [orb] in H. unfold try_catch, pbind, http in H. fold (login_call (float := float) cfg) in H.
  destruct (network (login_client cfg) login) as [resp | e];
    [| destruct e; discriminate].
  unfold raise_for_status in H.
  destruct ((200 <=? status_code resp)%Z && (status_code resp <=? 299)%Z)
    eqn:Es; [| discriminate].
  unfold response_json in H.
  destruct (json_payload resp) as [body |] eqn:Ej; [| discriminate].
  destruct body as [| | | | | | d]; try discriminate.
  cbn [of_result ret py_get] in H.
  destruct (dict_get "access_token" d) as [tok |] eqn:Et;
    cbn [of_result ret] in H; [| discriminate].
  destruct (truthy rt tok) eqn:Etr; cbn [negb] in H; [| discriminate].
  cbn [print ret app] in H. injection H as <- <- <-.
  exists resp, d. pose proof (success_range _ Es).
  repeat split; auto; lia.
Qed.

(** X13. How [authenticate] fails: without a user name or a password it
    raises [ValueError] before any request; a transport error or a
    status outside 200 to 299 is wrapped in
    [Exception("Authentication failed: ...")]; a reply without a truthy
    [access_token] raises [ValueError].  In no case is [bearer_token]
    written. *)
Theorem authenticate_failures (g : globals float) :
  (USERNAME cfg = EmptyString \/ PASSWORD cfg = EmptyString ->
   authenticate rt network cfg g
   = ([], g,
      Failed (ValueError
                "CS_USERNAME and CS_PASSWORD environment variables must be set"))) /\
  (USERNAME cfg <> EmptyString -> PASSWORD cfg <> EmptyString ->
   (forall msg,
      network (login_client cfg) login = Raise (HTTPError msg) ->
      authenticate rt network cfg g
      = ([Sent (login_client cfg) login], g,
         Failed (Bridge (Exception ("Authentication failed: " ++ msg))))) /\
   (forall resp,
      network (login_client cfg) login = Ok resp ->
      (status_code resp < 200 \/ 299 < status_code resp)%Z ->
      authenticate rt network cfg g
      = ([Sent (login_client cfg) login], g,
         Failed (Bridge (Exception ("Authentication failed: "
                                    ++ status_message rt resp))))) /\
   (forall resp d,
      network (login_client cfg) login = Ok resp ->
      (200 <= status_code resp <= 299)%Z ->
      json_payload resp = Some (JObj d) ->
      match dict_get "access_token" d with
      | Some token => truthy rt token = false
      | None => True
      end ->
      authenticate rt network cfg g
      = ([Sent (login_client cfg) login], g,
         Failed (ValueError "No access_token in authentication response")))).
Proof.
  split.
  - intros H. unfold authenticate.
    replace (String.eqb (USERNAME cfg) EmptyString
             || String.eqb (PASSWORD cfg) EmptyString) with true;
      [reflexivity |].
    symmetry. apply orb_true_iff.
    destruct H as [-> | ->]; [left | right]; reflexivity.
  - intros Hu Hp.
    apply String.eqb_neq in Hu. apply String.eqb_neq in Hp.
    unfold authenticate. rewrite Hu, Hp. cbn [orb].
    unfold try_catch, pbind, http. fold (login_call (float := float) cfg).
    repeat split.
    + intros msg ->. reflexivity.
    + intros resp -> Hs. unfold raise_for_status.
      replace ((200 <=? status_code resp)%Z && (status_code resp <=? 299)%Z)
        with false; [reflexivity |].
      symmetry. apply andb_false_iff.
      destruct Hs; [left; apply Z.leb_gt | right; apply Z.leb_gt]; lia.
    + intros resp d -> Hs Hj Ht. unfold raise_for_status.
      replace ((200 <=? status_code resp)%Z && (status_code resp <=? 299)%Z)
        with true
        by (symmetry; apply andb_true_iff; split; apply Z.leb_le; lia).
      unfold response_json. rewrite Hj. cbn [of_result ret py_get].
      destruct (dict_get "access_token" d) as [tok |]; cbn [of_result ret];
        [rewrite Ht |]; reflexivity.
Qed.

(** *** [fetch_openapi_spec] *)

(** All the ways [authenticate] ends. *)
Lemma authenticate_cases (g : globals float) :
  (USERNAME cfg = EmptyString \/ PASSWORD cfg = EmptyString) /\
  (exists e, raised_Exception e = true /\
             authenticate rt network cfg g = ([], g, Failed e)) \/
  USERNAME cfg <> EmptyString /\ PASSWORD cfg <> EmptyString /\
  (exists e, raised_Exception e = true /\
             authenticate rt network cfg g
             = ([Sent (login_client cfg) login], g, Failed e)) \/
  USERNAME cfg <> EmptyString /\ PASSWORD cfg <> EmptyString /\
  (exists token resp d,
     network (login_client cfg) login = Ok resp /\
     json_payload resp = Some (JObj d) /\
     dict_get "access_token" d = Some token /\
     authenticate rt network cfg g
     = ([Sent (login_client cfg) login;
         Printed (check_mark
                  ++ " Successfully authenticated with Cobalt Strike API")],
        {| bearer_token := Some token; api_client := api_client g;
           openapi_spec := openapi_spec g |},
        Returned token)).
Proof.
  unfold authenticate.
  destruct (String.eqb (USERNAME cfg) EmptyString) eqn:Eu.
  { left. apply String.eqb_eq in Eu. split; [now left |].
    eexists. split; [| reflexivity]. reflexivity. }
  destruct (String.eqb (PASSWORD cfg) EmptyString) eqn:Ep.
  { left. apply String.eqb_eq in Ep. split; [now right |].
    eexists. split; [| reflexivity]. reflexivity. }
  right. cbn [orb]. unfold try_catch, pbind, http. fold (login_call (float := float) cfg).
  apply String.eqb_neq in Eu. apply String.eqb_neq in Ep.
  assert (Hfail : forall e
                    (x : list (event float) * globals float * outcome json),
             x = ([Sent (login_client cfg) login], g, Failed e) ->
             raised_Exception e = true ->
             USERNAME cfg <> EmptyString /\ PASSWORD cfg <> EmptyString /\
             exists e', raised_Exception e' = true /\
                        x = ([Sent (login_client cfg) login], g, Failed e'))
    by (intros e x -> He; eauto).
  destruct (network (login_client cfg) login) as [resp | e].
  2:{ left. destruct e; eapply Hfail; reflexivity. }
  unfold raise_for_status.
  destruct ((200 <=? status_code resp)%Z && (status_code resp <=? 299)%Z).
  2:{ left. eapply Hfail; reflexivity. }
  unfold response_json.
  destruct (json_payload resp) as [body |] eqn:Ej.
  2:{ left. eapply Hfail; reflexivity. }
  destruct body as [| | | | | | d];
    try (left; eapply Hfail; reflexivity).
  cbn [of_result ret py_get].
  destruct (dict_get "access_token" d) as [tok |] eqn:Et;
    cbn [of_result ret].
  2:{ left. eapply Hfail; reflexivity. }
  destruct (truthy rt tok); cbn [negb].
  - right. split; [exact Eu |]. split; [exact Ep |].
    exists tok, resp, d. repeat split; try assumption.
  - left. eapply Hfail; reflexivity.
Qed.

(** All the ways [fetch_openapi_spec] ends with a client. *)
Lemma fetch_cases (g : globals float) (c : AsyncClient) :
  api_client g = Some c ->
  (exists e g1, raised_Exception e = true /\
                fetch_openapi_spec rt network g
                = ([Sent c (get_url "/v3/api-docs")], g1, Failed e)) \/
  (exists resp spec n,
     network c (get_url "/v3/api-docs") = Ok resp /\
     (200 <= status_code resp <= 299)%Z /\
     json_payload resp = Some spec /\
     count_operations spec = Ok n /\
     fetch_openapi_spec rt network g
     = ([Sent c (get_url "/v3/api-docs"); Printed (loaded_line rt n)],
        {| bearer_token := bearer_token g; api_client := api_client g;
           openapi_spec := Some spec |},
        Returned spec)).
Proof.
  intros Hc. unfold fetch_openapi_spec. rewrite Hc.
  unfold try_catch, pbind, http.
  destruct (network c (get_url "/v3/api-docs")) as [resp | e].
  2:{ left. destruct e; do 2 eexists; (split; [| reflexivity]); reflexivity. }
  unfold raise_for_status.
  destruct ((200 <=? status_code resp)%Z && (status_code resp <=? 299)%Z)
    eqn:Es.
  2:{ left. do 2 eexists. split; [| reflexivity]. reflexivity. }
  unfold response_json.
  destruct (json_payload resp) as [spec |] eqn:Ej.
  2:{ left. do 2 eexists. split; [| reflexivity]. reflexivity. }
  cbn [of_result ret].
  destruct (count_operations spec) as [n | e] eqn:En; cbn [of_result].
  - right. exists resp, spec, n.
    split; [reflexivity |]. split; [apply (success_range _ Es) |].
    split; [exact Ej |]. split; [exact En |].
    cbn [ret print app]. now rewrite Hc.
  - left. destruct e; do 2 eexists; (split; [| reflexivity]); reflexivity.
Qed.

(** X14. How [fetch_openapi_spec] fails: without a client it raises
    [Exception("API client not initialized")] and sends nothing; a
    transport error or a status outside 200 to 299 is wrapped in
    [Exception("Failed to fetch OpenAPI spec: ...")]; a successful reply
    that is no JSON raises the decoding error as it is.  In these cases
    the globals are left as they were. *)
Theorem fetch_failures (g : globals float) :
  (api_client g = None ->
   fetch_openapi_spec rt network g
   = ([], g, Failed (Bridge (Exception "API client not initialized")))) /\
  (forall c,
     api_client g = Some c ->
     (forall msg,
        network c (get_url "/v3/api-docs") = Raise (HTTPError msg) ->
        fetch_openapi_spec rt network g
        = ([Sent c (get_url "/v3/api-docs")], g,
           Failed (Bridge (Exception ("Failed to fetch OpenAPI spec: "
                                      ++ msg))))) /\
     (forall resp,
        network c (get_url "/v3/api-docs") = Ok resp ->
        (status_code resp < 200 \/ 299 < status_code resp)%Z ->
        fetch_openapi_spec rt network g
        = ([Sent c (get_url "/v3/api-docs")], g,
           Failed (Bridge (Exception ("Failed to fetch OpenAPI spec: "
                                      ++ status_message rt resp))))) /\
     (forall resp,
        network c (get_url "/v3/api-docs") = Ok resp ->
        (200 <= status_code resp <= 299)%Z ->
        json_payload resp = None ->
        fetch_openapi_spec rt network g
        = ([Sent c (get_url "/v3/api-docs")], g,
           Failed (Bridge JSONDecodeError)))).
Proof.
  split.
  - intros H. unfold fetch_openapi_spec. now rewrite H.
  - intros c Hc. unfold fetch_openapi_spec. rewrite Hc.
    unfold try_catch, pbind, http. repeat split.
    + intros msg ->. reflexivity.
    + intros resp -> Hs. unfold raise_for_status.
      replace ((200 <=? status_code resp)%Z && (status_code resp <=? 299)%Z)
        with false; [reflexivity |].
      symmetry. apply andb_false_iff.
      destruct Hs; [left; apply Z.leb_gt | right; apply Z.leb_gt]; lia.
    + intros resp -> Hs Hj. unfold raise_for_status.
      replace ((200 <=? status_code resp)%Z && (status_code resp <=? 299)%Z)
        with true
        by (symmetry; apply andb_true_iff; split; apply Z.leb_le; lia).
      unfold response_json. now rewrite Hj.
Qed.

(** *** [main] *)

(** [main] by the outcomes of its steps. *)
Lemma main_unfold (g : globals float) :
  main rt network cfg g
  = match authenticate rt network cfg g with
    | (t1, g1, Failed e) =>
        if raised_Exception e
        then (Printed "Starting Cobalt Strike MCP Server..."
              :: t1 ++ [Printed (cross_mark ++ " Authentication failed: "
                                 ++ raised_str rt e)],
              g1, Failed (SystemExit 1%Z))%list
        else (Printed "Starting Cobalt Strike MCP Server..." :: t1, g1,
              Failed e)
    | (t1, g1, Returned token) =>
        match fetch_openapi_spec rt network
                {| bearer_token := bearer_token g1;
                   api_client := Some (api token);
                   openapi_spec := openapi_spec g1 |} with
        | (t3, g3, Failed e) =>
            if raised_Exception e
            then (Printed "Starting Cobalt Strike MCP Server..."
                  :: t1
                  ++ Printed (check_mark
                              ++ " API client initialized with bearer token")
                  :: t3
                  ++ [Printed (cross_mark ++ " Failed to fetch OpenAPI spec: "
                               ++ raised_str rt e)],
                  g3, Failed (SystemExit 1%Z))%list
            else (Printed "Starting Cobalt Strike MCP Server..."
                  :: t1
                  ++ Printed (check_mark
                              ++ " API client initialized with bearer token")
                  :: t3,
                  g3, Failed e)%list
        | (t3, g3, Returned _) =>
            (Printed "Starting Cobalt Strike MCP Server..."
             :: t1
             ++ Printed (check_mark
                         ++ " API client initialized with bearer token")
             :: t3 ++ [Printed (check_mark ++ " MCP Server ready")],
             g3, Returned tt)%list
        end
    end.
Proof.
  cbv beta iota delta [main pbind try_catch print initialize_api_client
                         sys_exit fail ret].
  destruct (authenticate rt network cfg g) as [[t1 g1] [token | e]].
  - fold (bearer_client rt cfg token). cbn [app].
    destruct (fetch_openapi_spec rt network _) as [[t3 g3] [spec | e]].
    + cbn [app]. now rewrite ?app_nil_r.
    + destruct (raised_Exception e); cbn [app]; now rewrite ?app_nil_r.
  - destruct (raised_Exception e); cbn [app]; now rewrite ?app_nil_r.
Qed.

Lemma sent_app (xs ys : list (event float)) :
  sent (xs ++ ys)%list = (sent xs ++ sent ys)%list.
Proof.
  induction xs as [| [c call | line] xs IH]; simpl; [reflexivity | |];
    now rewrite IH.
Qed.

(** The three ways [main] ends: authentication failed, the document
    could not be loaded, the server is ready. *)
Lemma main_cases (g : globals float) :
  (exists ev,
     (sent ev = [] \/
      USERNAME cfg <> EmptyString /\ PASSWORD cfg <> EmptyString /\
      sent ev = [(login_client cfg, login)]) /\
     main rt network cfg g = (ev, g, Failed (SystemExit 1%Z))) \/
  (exists token resp d,
     USERNAME cfg <> EmptyString /\ PASSWORD cfg <> EmptyString /\
     network (login_client cfg) login = Ok resp /\
     json_payload resp = Some (JObj d) /\
     dict_get "access_token" d = Some token /\
     ((exists ev g1,
         sent ev = [(login_client cfg, login);
                    (api token, get_url "/v3/api-docs")] /\
         main rt network cfg g = (ev, g1, Failed (SystemExit 1%Z))) \/
      (exists ev resp' spec n,
         network (api token) (get_url "/v3/api-docs") = Ok resp' /\
         (200 <= status_code resp' <= 299)%Z /\
         json_payload resp' = Some spec /\
         count_operations spec = Ok n /\
         sent ev = [(login_client cfg, login);
                    (api token, get_url "/v3/api-docs")] /\
         In (Printed (loaded_line rt n)) ev /\
         main rt network cfg g
         = (ev,
            {| bearer_token := Some token; api_client := Some (api token);
               openapi_spec := Some spec |},
            Returned tt)))).
Proof.
  rewrite main_unfold.
  destruct (authenticate_cases g)
    as [[Hcred (e & He & E)] |
        [(Hu & Hp & e & He & E) |
         (Hu & Hp & token & resp & d & Hn & Hj & Ht & E)]]; rewrite E.
  - left. rewrite He. eexists. split; [| reflexivity]. now left.
  - left. rewrite He. eexists. split; [| reflexivity]. right. auto.
  - right. exists token, resp, d.
    split; [exact Hu |]. split; [exact Hp |].
    split; [exact Hn |]. split; [exact Hj |]. split; [exact Ht |].
    cbn [bearer_token openapi_spec].
    destruct (fetch_cases
                {| bearer_token := Some token; api_client := Some (api token);
                   openapi_spec := openapi_spec g |} (api token) eq_refl)
      as [(e & g1 & He & E') | (resp' & spec & n & Hn' & Hs & Hj' & Hc & E')];
      rewrite E'.
    + left. rewrite He. do 2 eexists. split; [| reflexivity]. reflexivity.
    + right. do 4 eexists.
      split; [exact Hn' |]. split; [exact Hs |]. split; [exact Hj' |].
      split; [exact Hc |]. split; [| split; [| reflexivity]].
      * reflexivity.
      * cbn. do 5 right. now left.
Qed.

(** X15. [main] either reaches the ready server or exits with status 1,
    never with another error.  What it sends is a prefix of: the login,
    then the request for the document on the client that carries the
    token of the login reply; without a user name or a password it sends
    nothing. *)
Theorem main_requests (g g' : globals float) (events : list (event float))
        (r : outcome unit) :
  main rt network cfg g = (events, g', r) ->
  (r = Returned tt \/ r = Failed (SystemExit 1%Z)) /\
  (sent events = [] \/
   sent events = [(login_client cfg, login)] \/
   exists token resp d,
     network (login_client cfg) login = Ok resp /\
     json_payload resp = Some (JObj d) /\
     dict_get "access_token" d = Some token /\
     sent events = [(login_client cfg, login);
                    (api token, get_url "/v3/api-docs")]) /\
  (USERNAME cfg = EmptyString \/ PASSWORD cfg = EmptyString ->
   sent events = [] /\ r = Failed (SystemExit 1%Z)).
Proof.
  intros H.
  destruct (main_cases g)
    as [(ev & Hsent & E) |
        (token & resp & d & Hu & Hp & Hn & Hj & Ht &
         [(ev & g1 & Hsent & E) |
          (ev & resp' & spec & n & _ & _ & _ & _ & Hsent & _ & E)])];
    rewrite E in H; injection H as <- <- <-.
  - split; [now right |]. split.
    + destruct Hsent as [-> | (_ & _ & ->)]; auto.
    + intros Hcred. split; [| reflexivity].
      destruct Hsent as [-> | (Hu & Hp & _)]; [reflexivity |].
      destruct Hcred; contradiction.
  - split; [now right |]. split; [right; right; eauto 8 |].
    intros [Hc | Hc]; contradiction.
  - split; [now left |]. split; [right; right; eauto 8 |].
    intros [Hc | Hc]; contradiction.
Qed.

(** X16. When [main] reaches the ready server, the globals hold the
    token of the login reply, a client for [BASE_URL] whose
    [Authorization] header is [Bearer] and that token, with the
    configured TLS verification and a 30 second timeout, and the
    document decoded from the successful reply of that client to
    [GET /v3/api-docs]. *)
Theorem main_serves (g g' : globals float) (events : list (event float)) :
  main rt network cfg g = (events, g', Returned tt) ->
  exists token resp d resp' spec,
    network (login_client cfg) login = Ok resp /\
    json_payload resp = Some (JObj d) /\
    dict_get "access_token" d = Some token /\
    network (api token) (get_url "/v3/api-docs") = Ok resp' /\
    (200 <= status_code resp' <= 299)%Z /\
    json_payload resp' = Some spec /\
    g' = {| bearer_token := Some token; api_client := Some (api token);
            openapi_spec := Some spec |}.
Proof.
  intros H.
  destruct (main_cases g)
    as [(ev & _ & E) |
        (token & resp & d & Hu & Hp & Hn & Hj & Ht &
         [(ev & g1 & _ & E) |
          (ev & resp' & spec & n & Hn' & Hs & Hj' & _ & _ & _ & E)])];
    rewrite E in H; try discriminate.
  injection H as _ <-. exists token, resp, d, resp', spec. auto 8.
Qed.

End StartupFacts.

(** * The operation count of the log and the tool list *)

Section CountFacts.

Context {float : Type} (rt : runtime float).

Local Abbreviation json := (json float).

Lemma NoDup_METHODS : NoDup METHODS.
Proof.
  unfold METHODS.
  repeat (constructor; [simpl; intuition discriminate |]). constructor.
Qed.

Lemma dict_get_keys (k : string) (d : list (string * json)) :
  In k (map fst d) <-> dict_get k d <> None.
Proof.
  induction d as [| [k' v] d IH]; simpl; [intuition congruence |].
  destruct (String.eqb k' k) eqn:E.
  - apply String.eqb_eq in E. subst. split; [discriminate | now left].
  - apply String.eqb_neq in E. rewrite <- IH. intuition congruence.
Qed.

Lemma item_operations_length (path : string) (d : list (string * json))
      (ms : list string) :
  length (Spec.item_operations path (JObj d) ms)
  = length (filter (fun m => dict_mem m d) ms).
Proof.
  unfold Spec.item_operations.
  induction ms as [| m ms IH]; [reflexivity |].
  cbn [flat_map filter]. unfold dict_mem at 1. rewrite length_app, IH.
  now destruct (dict_get m d).
Qed.

(** In a mapping, whose keys are distinct, the keys that are methods are
    as many as the methods that are keys. *)
Lemma keys_methods_count (path : string) (d : list (string * json)) :
  NoDup (map fst d) ->
  length (filter (fun k => existsb (String.eqb k) METHODS) (map fst d))
  = length (Spec.item_operations path (JObj d) METHODS).
Proof.
  intros Hnd. rewrite item_operations_length.
  apply Nat.le_antisymm; apply NoDup_incl_length.
  - now apply NoDup_filter.
  - intros k Hk. apply filter_In in Hk as [Hk Hm]. apply filter_In.
    apply existsb_exists in Hm as (m & Hm & E).
    apply String.eqb_eq in E. subst m. split; [exact Hm |].
    apply dict_get_keys in Hk. unfold dict_mem.
    now destruct (dict_get k d).
  - apply NoDup_filter, NoDup_METHODS.
  - intros m Hm. apply filter_In in Hm as [Hm Hd]. apply filter_In. split.
    + apply dict_get_keys. unfold dict_mem in Hd.
      now destruct (dict_get m d).
    + apply existsb_exists. exists m. split; [exact Hm |].
      apply String.eqb_refl.
Qed.

Lemma count_loop (items : list (string * json)) :
  forall acc n,
    for_each (fun operation_count path_data =>
                bind (py_keys path_data) (fun keys =>
                Ok (operation_count
                    + length (filter (fun k => existsb (String.eqb k) METHODS)
                                     keys))))
             (map snd items) acc = Ok n ->
    Forall (fun kv => forall d, snd kv = JObj d -> NoDup (map fst d)) items ->
    n = acc + length (Spec.operations items).
Proof.
  induction items as [| [path item] items IH]; intros acc n H Hnd;
    cbn [map for_each snd] in H.
  - injection H as <-. simpl. lia.
  - bind_inv H. bind_inv Ha. injection Ha as <-.
    destruct item as [| | | | | | d]; try discriminate.
    injection Ha0 as <-.
    inversion Hnd as [| ? ? Hd Hrest]; subst.
    apply IH in H; [| exact Hrest]. rewrite H.
    cbn [Spec.operations flat_map fst snd]. rewrite length_app.
    change (acc
            + length (filter (fun k => existsb (String.eqb k) METHODS)
                             (map fst d))
            + length (Spec.operations items)
            = acc + (length (Spec.item_operations path (JObj d) METHODS)
                     + length (Spec.operations items))).
    rewrite (keys_methods_count path d (Hd d eq_refl)). lia.
Qed.

(** X17. The operation count of [fetch_openapi_spec] is the number of
    tools: for a document whose path items have distinct keys, as every
    decoded mapping has, the count the loader computes for its log line
    equals the length of the list [create_tools_from_openapi] returns. *)
Theorem operation_count_is_tool_count (spec : list (string * json))
        (n : nat) (tools : list (Tool float)) :
  count_operations (JObj spec) = Ok n ->
  create_tools_from_openapi rt (Some spec) = Ok tools ->
  (forall paths,
     dict_get "paths" spec = Some (JObj paths) ->
     Forall (fun kv => forall d, snd kv = JObj d -> NoDup (map fst d)) paths) ->
  length tools = n.
Proof.
  intros Hc Ht Hnd. unfold count_operations in Hc.
  cbn [py_contains bind] in Hc. unfold dict_mem in Hc.
  destruct (dict_get "paths" spec) as [v |] eqn:Hp.
  - cbn [py_getitem] in Hc. rewrite Hp in Hc. cbn [bind] in Hc.
    bind_inv Hc. destruct v as [| | | | | | paths]; try discriminate.
    injection Ha as <-.
    apply count_loop in Hc; [| now apply Hnd]. subst n.
    apply (tools_of_operations rt _ _ _ Ht) in Hp.
    apply Forall2_length in Hp. simpl. now rewrite Hp.
  - injection Hc as <-.
    rewrite (no_paths_key_no_tool rt spec Hp) in Ht. now injection Ht as <-.
Qed.

End CountFacts.

(** * The further properties on the sample documents *)

(** X1: the three operations of [Sample.beacons] give three tools. *)
Lemma create_tools_order_witness :
  exists tools,
    create_tools_from_openapi Sample.rt (Some Sample.beacons) = Ok tools /\
    length tools = 3.
Proof.
  destruct (create_tools_from_openapi Sample.rt (Some Sample.beacons))
    as [tools | e] eqn:E; [| vm_compute in E; discriminate].
  exists tools. split; [reflexivity |].
  exact (proj2 (create_tools_order Sample.rt Sample.beacons _ tools E eq_refl)).
Defined.

(** X2: of the two parameters of [GET /beacons/{id}], [id] is
    required. *)
Lemma required_follows_declaration_witness :
  exists t,
    operation_tool Sample.rt "get" "/beacons/{id}"
      (JObj [("summary", JStr "One beacon");
             ("parameters",
              JArr [Sample.id_parameter; Sample.token_parameter])]) = Ok t /\
    Spec.required_list t = [JStr "id"].
Proof.
  destruct (operation_tool Sample.rt "get" "/beacons/{id}"
              (JObj [("summary", JStr "One beacon");
                     ("parameters",
                      JArr [Sample.id_parameter; Sample.token_parameter])]))
    as [t | e] eqn:E; [| vm_compute in E; discriminate].
  exists t. split; [reflexivity |].
  exact (proj2 (required_follows_declaration Sample.rt _ _ _ _ t E eq_refl)
               eq_refl).
Defined.

(** X3: the property of [id]. *)
Lemma property_of_declared_parameter_witness :
  exists t,
    operation_tool Sample.rt "get" "/beacons/{id}"
      (JObj [("summary", JStr "One beacon");
             ("parameters",
              JArr [Sample.id_parameter; Sample.token_parameter])]) = Ok t /\
    built_get Sample.rt (JStr "id") (properties (inputSchema t))
    = Some {| prop_type := JStr "string";
              prop_description := JStr EmptyString |}.
Proof.
  destruct (operation_tool Sample.rt "get" "/beacons/{id}"
              (JObj [("summary", JStr "One beacon");
                     ("parameters",
                      JArr [Sample.id_parameter; Sample.token_parameter])]))
    as [t | e] eqn:E; [| vm_compute in E; discriminate].
  exists t. split; [reflexivity |].
  apply (property_of_declared_parameter Sample.rt _ _ _ t []
           [Sample.token_parameter]
           [("name", JStr "id"); ("in", JStr "path");
            ("required", JBool true);
            ("schema", JObj [("type", JStr "string")])] "id" E eq_refl eq_refl).
  - intros q [<- | []]. discriminate.
  - discriminate.
Defined.

(** X4: [getTarget] of [Sample.beacons]. *)
Lemma listed_tool_invokes_its_operation_witness :
  call_api_operation Sample.rt (Some Sample.plain_client)
                     (Some Sample.beacons) "getTarget" []
  = invoke Sample.rt Sample.plain_client "get" "/targets"
           (JObj [("operationId", JStr "getTarget")]) [].
Proof.
  destruct (create_tools_from_openapi Sample.rt (Some Sample.beacons))
    as [tools | e] eqn:E; [| vm_compute in E; discriminate].
  refine (proj2 (listed_tool_invokes_its_operation Sample.rt
                   Sample.plain_client Sample.beacons _ tools "/targets" _
                   "get" _ "getTarget" [] E eq_refl eq_refl
                   (or_intror (or_introl eq_refl)) (or_introl eq_refl)
                   eq_refl eq_refl _)).
  intros path' item' m' op' Hin Hm Hd Hid.
  destruct Hin as [Hin | [Hin | [Hin | []]]]; injection Hin as <- <-;
    destruct Hm as [<- | [<- | [<- | [<- | [<- | []]]]]];
    cbn in Hd; try discriminate; injection Hd as <-;
    cbn in Hid; try discriminate; auto.
Defined.

(** X5: in [Sample.shadowed] the identifier [get__a] is found at
    [GET /b], after the path [/a] that does not declare it. *)
Lemma first_match_wins_witness :
  call_api_operation Sample.rt (Some Sample.plain_client)
                     (Some Sample.shadowed) "get__a" []
  = invoke Sample.rt Sample.plain_client "get" "/b"
           (JObj [("operationId", JStr "get__a")]) [].
Proof.
  exact (first_match_wins Sample.rt Sample.plain_client Sample.shadowed
           [("/a", JObj [("get", JObj [("summary", JStr "List a")])])] []
           "/b" _ [] ["post"; "put"; "delete"; "patch"] "get" _ "get__a" []
           eq_refl eq_refl eq_refl eq_refl eq_refl eq_refl eq_refl eq_refl).
Defined.

(** X7: [killBeacon] through a client that times out. *)
Lemma remote_failure_is_wrapped_witness :
  snd (call_api_operation Sample.rt (Some Sample.failing_client)
         (Some Sample.beacons) "killBeacon" [("id", JStr "42")])
  = Raise (Exception "API call failed: timed out").
Proof.
  exact (proj1 (remote_failure_is_wrapped Sample.rt Sample.failing_client
                  Sample.beacons "killBeacon" [("id", JStr "42")]
                  {| req_verb := POST; req_path := "/beacons/42/kill";
                     req_params := []; req_json := Some JNull |} eq_refl)
               "timed out" eq_refl).
Defined.

(** X8: [listBeacons] called with [filter] and an argument that is not
    declared. *)
Lemma query_parameters_are_declared_witness :
  fst (call_api_operation Sample.rt (Some Sample.plain_client)
         (Some Sample.listing) "listBeacons"
         [("filter", JStr "alive"); ("verbose", JBool true)])
  = [ {| req_verb := GET; req_path := "/beacons";
         req_params := [(JStr "filter", JStr "alive")];
         req_json := None |} ] /\
  built_get Sample.rt (JStr "filter")
            ([(JStr "filter", JStr "alive")]
             : list (Sample.value * Sample.value))
  = Some (JStr "alive").
Proof.
  split; [reflexivity |].
  destruct (query_parameters_are_declared Sample.rt Sample.plain_client
              Sample.listing "listBeacons"
              [("filter", JStr "alive"); ("verbose", JBool true)]
              {| req_verb := GET; req_path := "/beacons";
                 req_params := [(JStr "filter", JStr "alive")];
                 req_json := None |} eq_refl)
    as (path & m & operation & Hres & _ & Hall).
  vm_compute in Hres. injection Hres as <- <- <-.
  exact (Hall Sample.filter_parameter "filter" (JStr "alive")
              (or_introl eq_refl) eq_refl eq_refl eq_refl).
Defined.

(** X9: [killBeacon] called with a body. *)
Lemma request_body_is_forwarded_witness :
  req_json {| req_verb := POST; req_path := "/beacons/42/kill";
              req_params := [];
              req_json := Some (JObj [("force", JBool true)]) |}
  = Some (JObj [("force", @JBool Empty_set true)]).
Proof.
  exact (request_body_is_forwarded Sample.rt Sample.plain_client
           Sample.beacons "killBeacon"
           [("id", JStr "42"); ("requestBody", JObj [("force", JBool true)])]
           {| req_verb := POST; req_path := "/beacons/42/kill";
              req_params := [];
              req_json := Some (JObj [("force", JBool true)]) |} eq_refl).
Defined.

(** X10: [killBeacon] called without its required [id]. *)
Lemma missing_arguments_are_not_rejected_witness :
  exists req,
    call_api_operation Sample.rt (Some Sample.plain_client)
                       (Some Sample.beacons) "killBeacon" []
    = ([req], Spec.normalise Sample.rt (Sample.plain_client req)) /\
    req_path req = "/beacons/{id}/kill" /\ req_params req = [].
Proof.
  apply (missing_arguments_are_not_rejected Sample.rt Sample.plain_client
           Sample.beacons "killBeacon" [] "/beacons/{id}/kill" "post"
           [("operationId", JStr "killBeacon");
            ("parameters", JArr [Sample.id_parameter]);
            ("requestBody", Sample.kill_body)]
           [Sample.id_parameter] eq_refl eq_refl).
  constructor; [| constructor].
  exists [("name", JStr "id"); ("in", JStr "path"); ("required", JBool true);
          ("schema", JObj [("type", JStr "string")])], "id".
  repeat split.
Defined.

(** X11: the text [done] comes back as it is. *)
Lemma call_tool_renders_reply_witness :
  snd (call_tool Sample.rt (Some Sample.plain_client) (Some Sample.beacons)
         "killBeacon" (Some [("id", JStr "42")]))
  = Ok [ {| TextContent.type := "text"; TextContent.text := "done" |} ].
Proof.
  apply (call_tool_renders_reply Sample.rt Sample.plain_client
           (Some Sample.beacons) "killBeacon" (Some [("id", JStr "42")])
           {| req_verb := POST; req_path := "/beacons/42/kill";
              req_params := []; req_json := Some JNull |}
           {| status_code := 200; text := "done"; json_payload := None |}
           eq_refl eq_refl).
  simpl. lia.
Defined.

(** X12: the operator logs in. *)
Lemma authenticate_returns_witness :
  exists events g',
    authenticate Sample.rt Sample.network Sample.operator Sample.unset
    = (events, g', Returned (JStr "t0k3n")) /\
    bearer_token g' = Some (JStr "t0k3n") /\
    sent events
    = [(login_client Sample.operator,
        post_json "https://teamserver:50443/api/auth/login"
                  (JObj [("username", JStr "operator");
                         ("password", JStr "secret")]))].
Proof.
  destruct (authenticate Sample.rt Sample.network Sample.operator Sample.unset)
    as [[events g'] r] eqn:E.
  assert (Hr : r = Returned (JStr "t0k3n"))
    by (vm_compute in E; now injection E as _ _ <-).
  subst r. exists events, g'. split; [reflexivity |].
  destruct (authenticate_returns Sample.rt Sample.network Sample.operator
              Sample.unset g' events (JStr "t0k3n") E)
    as (_ & _ & resp & d & _ & _ & _ & _ & _ & Hsent & ->).
  split; [reflexivity | exact Hsent].
Defined.

(** X13: without a user name. *)
Lemma authenticate_failures_witness :
  authenticate Sample.rt Sample.network Sample.anonymous Sample.unset
  = ([], Sample.unset,
     Failed (ValueError
               "CS_USERNAME and CS_PASSWORD environment variables must be set")).
Proof.
  apply (proj1 (authenticate_failures Sample.rt Sample.network
                  Sample.anonymous Sample.unset)).
  left. reflexivity.
Defined.

(** X14: before a client is there. *)
Lemma fetch_failures_witness :
  fetch_openapi_spec Sample.rt Sample.network Sample.unset
  = ([], Sample.unset,
     Failed (Bridge (Exception "API client not initialized"))).
Proof.
  apply (proj1 (fetch_failures Sample.rt Sample.network Sample.unset)).
  reflexivity.
Defined.

(** X15: without a user name [main] sends nothing and exits with 1. *)
Lemma main_requests_witness :
  exists events g',
    main Sample.rt Sample.network Sample.anonymous Sample.unset
    = (events, g', Failed (SystemExit 1%Z)) /\
    sent events = [].
Proof.
  destruct (main Sample.rt Sample.network Sample.anonymous Sample.unset)
    as [[events g'] r] eqn:E.
  destruct (main_requests Sample.rt Sample.network Sample.anonymous
              Sample.unset g' events r E) as (_ & _ & Hcred).
  destruct (Hcred (or_introl eq_refl)) as [Hsent ->].
  exists events, g'. split; [reflexivity | exact Hsent].
Defined.

(** X16: the operator's server gets ready. *)
Lemma main_serves_witness :
  exists events g',
    main Sample.rt Sample.network Sample.operator Sample.unset
    = (events, g', Returned tt) /\
    bearer_token g' = Some (JStr "t0k3n") /\
    option_map headers (api_client g')
    = Some [("Authorization", "Bearer t0k3n");
            ("Content-Type", "application/json")] /\
    openapi_spec g' = Some (JObj Sample.beacons).
Proof.
  destruct (main Sample.rt Sample.network Sample.operator Sample.unset)
    as [[events g'] r] eqn:E.
  assert (Hr : r = Returned tt)
    by (vm_compute in E; now injection E as _ _ <-).
  subst r. exists events, g'. split; [reflexivity |].
  destruct (main_serves Sample.rt Sample.network Sample.operator Sample.unset
              g' events E)
    as (token & resp & d & resp' & spec & Hn & Hj & Ht & Hn' & _ & Hj' & ->).
  cbn in Hn. injection Hn as <-. cbn in Hj. injection Hj as <-.
  cbn in Ht. injection Ht as <-.
  cbn in Hn'. injection Hn' as <-. cbn in Hj'. injection Hj' as <-.
  repeat split.
Defined.

(** X17: three operations are counted for [Sample.beacons], and three
    tools listed. *)
Lemma operation_count_is_tool_count_witness :
  exists tools,
    count_operations (JObj Sample.beacons) = Ok 3 /\
    create_tools_from_openapi Sample.rt (Some Sample.beacons) = Ok tools /\
    length tools = 3.
Proof.
  destruct (create_tools_from_openapi Sample.rt (Some Sample.beacons))
    as [tools | e] eqn:E; [| vm_compute in E; discriminate].
  exists tools. split; [reflexivity |]. split; [reflexivity |].
  apply (operation_count_is_tool_count Sample.rt Sample.beacons 3 tools
           eq_refl E).
  intros paths Hp. cbn in Hp. injection Hp as <-.
  repeat (constructor;
          [intros d Hd; cbn in Hd; injection Hd as <-;
           repeat (constructor; [simpl; intuition discriminate |]);
           constructor |]).
  constructor.
Defined.
